(** * Rehma Health OS: the cycle and metabolic engine of [main.js]

    A shallow embedding of class [RehmaHealthOS] (event log, cycle
    statistics, phase resolver, Katch-McArdle estimator, daily aggregator)
    and the properties its specification states about it.

    Modelling conventions.
    - A calendar date is the string 'YYYY-MM-DD' in the source.  It is
      represented by its day number (days since 1970-01-01, a [Z]):
      [new Date(s).getTime()] is 86400000 times that number, and for
      four-digit years the string comparisons [===], [<] and [<=] of the
      source coincide with [=], [<] and [<=] on day numbers.  [isoDate]
      turns year, month and day into the day number.
    - [Date.prototype.setDate] works on the local calendar and
      [toISOString] on the UTC one.  What that makes of
      [d.setDate(d.getDate() + 5)] depends on the local time zone, which
      is a parameter ([Zone]) of the functions that reach it.
    - A number held in the state is the rational it denotes ([Q]); a
      property that may be missing or NaN is an [option Q], [None]
      standing for both (each is falsy).  The metabolic estimate is
      computed in binary64, with the operations of the standard
      specification of IEEE 754 ([SpecFloat]) at precision 53.  The sums
      of the daily aggregator are written with rational addition and
      stated as the left-to-right folds that [reduce] performs.
    - [save] and [broadcast] write to localStorage and dispatch a DOM
      event; neither changes [this.state], so they do not appear. *)

From Stdlib Require Import ZArith QArith Qround Lia List Sorted Permutation.
From Stdlib Require Import SpecFloat.
From stdpp Require Import gmap strings list fin_maps.

Local Open Scope Z_scope.

(** ** Dates *)

(** Day number of the proleptic Gregorian date [y]-[m]-[d]. *)
Definition isoDate (y m d : Z) : Z :=
  let y' := if m <=? 2 then y - 1 else y in
  let era := y' / 400 in
  let yoe := y' - era * 400 in
  let mp := if m <=? 2 then m + 9 else m - 3 in
  let doy := (153 * mp + 2) / 5 + d - 1 in
  let doe := yoe * 365 + yoe / 4 - yoe / 100 + doy in
  era * 146097 + doe - 719468.

(** ** Data model *)

Inductive EventType := start | end_.

Definition EventType_eqb (a b : EventType) : bool :=
  match a, b with
  | start, start | end_, end_ => true
  | _, _ => false
  end.

(** [{ date: 'YYYY-MM-DD', type: 'start'|'end' }] *)
Record CycleEvent := mkEvent { date : Z; type : EventType }.

Definition Start (d : Z) : CycleEvent := mkEvent d start.
Definition End (d : Z) : CycleEvent := mkEvent d end_.

Inductive Phase := Menstrual | Follicular | Ovulation | Luteal.

(** A number-valued property: [None] when it is missing or NaN. *)
Definition jsnum := option Q.

(** [x || 0] on such a property. *)
Definition orZero (x : jsnum) : Q :=
  match x with
  | Some q => q
  | None => 0%Q
  end.

Module Food.
(** The entry that [logFood] pushes. *)
Record item := mk
  { id : Z; name : string; cals : jsnum; p : jsnum; c : jsnum;
    f : jsnum; fiber : jsnum }.
End Food.

(** A workout entry is whatever object the caller passed, with an [id]
    added: a finite map from property names to numeric values. *)
Abbreviation Workout := (gmap string jsnum).

Record Profile := mkProfile
  { weight : Q; bodyFat : Q; activityLevel : string }.

Record Logs := mkLogs
  { nutrition : gmap Z (list Food.item);
    workouts : gmap Z (list Workout);
    weights : gmap Z Q }.

Record Cycle := mkCycle
  { events : list CycleEvent; avgLength : Z; avgDuration : Z }.

Record State := mkState
  { profile : Profile; logs : Logs; cycle : Cycle }.

Definition set_events (ev : list CycleEvent) (st : State) : State :=
  mkState (profile st) (logs st)
          (mkCycle ev (avgLength (cycle st)) (avgDuration (cycle st))).

Definition set_avgLength (n : Z) (st : State) : State :=
  mkState (profile st) (logs st)
          (mkCycle (events (cycle st)) n (avgDuration (cycle st))).

Definition set_workouts (w : gmap Z (list Workout)) (st : State) : State :=
  mkState (profile st)
          (mkLogs (nutrition (logs st)) w (weights (logs st)))
          (cycle st).

(** [getFactoryDefaults], the fields the engine reads. *)
Definition getFactoryDefaults : State :=
  mkState (mkProfile 65 22 "moderate")
          (mkLogs ∅ ∅ ∅)
          (mkCycle [] 29 5).

(** ** Event predicates used by the source's [find] callbacks *)

Definition isStart (e : CycleEvent) : bool := EventType_eqb (type e) start.
Definition isEnd (e : CycleEvent) : bool := EventType_eqb (type e) end_.

(** [e.date === dateStr && e.type === t] *)
Definition onDateOfType (d : Z) (t : EventType) (e : CycleEvent) : bool :=
  (date e =? d) && EventType_eqb (type e) t.

(** ** Cycle statistics: [recalculateCycleStats] *)

(** [Math.round(t / c)] for an integer [t] and a positive integer [c]:
    the nearest integer, a half rounding up. *)
Definition jsRound (t c : Z) : Z := (2 * t + c) / (2 * c).

(** The [for] loop over [i < events.length - 1]: the head of [l] is
    [events[i]], its tail is [events.slice(i + 1)], and the accumulator is
    [(totalDays, cycles)]. *)
Fixpoint statsLoop (l : list CycleEvent) (acc : Z * Z) : Z * Z :=
  match l with
  | [] => acc
  | e :: rest =>
      match rest with
      | [] => acc
      | _ :: _ =>
          let acc' :=
            if isStart e then
              match List.find isStart rest with
              | Some nextStart =>
                  let days := date nextStart - date e in
                  if (15 <? days) && (days <? 50)
                  then (fst acc + days, snd acc + 1)
                  else acc
              | None => acc
              end
            else acc in
          statsLoop rest acc'
      end
  end.

Definition recalculateCycleStats (st : State) : State :=
  let ev := events (cycle st) in
  if Z.of_nat (length ev) <? 3 then st
  else
    let '(totalDays, cycles) := statsLoop ev (0, 0) in
    if 0 <? cycles then set_avgLength (jsRound totalDays cycles) st
    else st.

(** ** Sorting: [sortCycleEvents] *)

(** [Array.prototype.sort] with the comparator [new Date(a.date) - new
    Date(b.date)] is a stable sort by date; a stable sort has one possible
    result, computed here by insertion from the right. *)
Fixpoint insertByDate (e : CycleEvent) (l : list CycleEvent) : list CycleEvent :=
  match l with
  | [] => [e]
  | x :: r =>
      if date e <=? date x then e :: x :: r
      else x :: insertByDate e r
  end.

Fixpoint sortByDate (l : list CycleEvent) : list CycleEvent :=
  match l with
  | [] => []
  | e :: r => insertByDate e (sortByDate r)
  end.

Definition sortCycleEvents (st : State) : State :=
  recalculateCycleStats (set_events (sortByDate (events (cycle st))) st).

(** ** Logging periods *)

(** [this.state.cycle.events.push(e)] *)
Definition pushEvent (e : CycleEvent) (st : State) : State :=
  set_events (events (cycle st) ++ [e]) st.

(** The local time zone as [closeOpenCycles] meets it.  [new Date(s)] is
    midnight UTC of the day [s]; [d.setDate(d.getDate() + 5)] puts the
    local clock reading five calendar days on, and [toISOString] gives
    the UTC date of that instant.  The instant is five times 24 hours
    after the first one, less the amount by which the zone's UTC offset
    has grown between the two readings: where the local clocks are set
    forward in between, it falls in the last hour of day [s + 4];
    otherwise on day [s + 5].  [clockForward z s] tells whether the
    clocks of [z] are set forward between those two readings. *)
Record Zone := mkZone { clockForward : Z -> bool }.

(** A zone without clock changes. *)
Definition utc : Zone := mkZone (fun _ => false).

(** Europe/London in 2024: clocks go forward on 31 March at 01:00 UTC,
    after the midnight of that day and before the local midnight of
    1 April. *)
Definition london2024 : Zone :=
  mkZone (fun s => (isoDate 2024 3 27 <=? s) && (s <=? isoDate 2024 3 31)).

(** [d.toISOString().split('T')[0]] after [d.setDate(d.getDate() + 5)],
    for [d = new Date(s)]. *)
Definition syntheticEnd (tz : Zone) (s : Z) : Z :=
  if clockForward tz s then s + 4 else s + 5.

Definition closeOpenCycles (tz : Zone) (newStartDate : Z) (st : State) : State :=
  match last (events (cycle st)) with
  | None => st
  | Some lastEvent =>
      if isStart lastEvent && (date lastEvent <? newStartDate) then
        let d := syntheticEnd tz (date lastEvent) in
        if d <? newStartDate then pushEvent (End d) st else st
      else st
  end.

Definition logPeriodStart (tz : Zone) (dateStr : Z) (st : State) : State :=
  if existsb (onDateOfType dateStr start) (events (cycle st)) then st
  else
    sortCycleEvents (pushEvent (Start dateStr) (closeOpenCycles tz dateStr st)).

(** The backward scan of [logPeriodEnd]: [n] is [i + 1], so the call with
    [n = events.length] starts at the last index; the result is
    [targetIndex], [None] for -1. *)
Fixpoint findTarget (ev : list CycleEvent) (dateStr : Z) (n : nat) : option nat :=
  match n with
  | O => None
  | S i =>
      match ev !! i with
      | Some e =>
          if isStart e && (date e <=? dateStr) then
            match ev !! S i with
            | None => Some i
            | Some nextEvent =>
                if isStart nextEvent then Some i
                else findTarget ev dateStr i
            end
          else findTarget ev dateStr i
      | None => findTarget ev dateStr i
      end
  end.

Definition logPeriodEnd (dateStr : Z) (st : State) : State :=
  if existsb (onDateOfType dateStr end_) (events (cycle st)) then st
  else
    match findTarget (events (cycle st)) dateStr (length (events (cycle st))) with
    | Some _ => sortCycleEvents (pushEvent (End dateStr) st)
    | None => st
    end.

(** ** Phase resolver: [getPhaseForDate] *)

(** The first loop: the last event on or before the date, scanning from
    the front and stopping at the first later event. *)
Fixpoint lastEventLoop (tDate : Z) (l : list CycleEvent)
    (lastEvent : option CycleEvent) : option CycleEvent :=
  match l with
  | [] => lastEvent
  | e :: r =>
      if date e <=? tDate then lastEventLoop tDate r (Some e)
      else lastEvent
  end.

(** The four [if]s that end the function. *)
Definition phaseOfCycleDay (currentCycleDay : Z) : Phase :=
  if currentCycleDay <=? 5 then Menstrual
  else if currentCycleDay <=? 13 then Follicular
  else if currentCycleDay <=? 17 then Ovulation
  else Luteal.

(** [this.state.cycle.avgLength || 29] *)
Definition avgLen (st : State) : Z :=
  if avgLength (cycle st) =? 0 then 29 else avgLength (cycle st).

(** Part 2 of the function, "PHASE MATH"; [%] is the truncating
    remainder. *)
Definition phaseMath (st : State) (tDate : Z) : Phase :=
  match List.find (fun e => isStart e && (date e <=? tDate))
                  (rev (events (cycle st))) with
  | None => Follicular
  | Some lastStart =>
      let daysSinceStart := (tDate - date lastStart) + 1 in
      let currentCycleDay := Z.rem (daysSinceStart - 1) (avgLen st) + 1 in
      phaseOfCycleDay currentCycleDay
  end.

Definition getPhaseForDate (st : State) (dateStr : Z) : Phase :=
  match lastEventLoop dateStr (events (cycle st)) None with
  | Some lastEvent =>
      if isStart lastEvent then
        let diff := dateStr - date lastEvent in
        if diff <=? 7 then Menstrual else phaseMath st dateStr
      else phaseMath st dateStr
  | None => phaseMath st dateStr
  end.

(** ** Metabolic engine: [calculateKatchMcArdle] *)

(** The object literal [multipliers]. *)
Definition multipliers : gmap string Q :=
  {[ "sedentary" := 1.2%Q; "light" := 1.375%Q; "moderate" := 1.55%Q;
     "active" := 1.725%Q; "athlete" := 1.9%Q ]}.

(** [x || dflt] on a number: zero is falsy. *)
Definition orDefault (x dflt : Q) : Q := if Qeq_bool x 0 then dflt else x.

(** [this.state.logs.weight[this.runtime.today] || p.weight] *)
Definition currentWeight (st : State) (today : Z) : Q :=
  match weights (logs st) !! today with
  | Some w => orDefault w (weight (profile st))
  | None => weight (profile st)
  end.

(** *** Numbers of the estimate: binary64 *)

Abbreviation num := spec_float.

Definition add64 : num -> num -> num := SFadd 53 1024.
Definition sub64 : num -> num -> num := SFsub 53 1024.
Definition mul64 : num -> num -> num := SFmul 53 1024.
Definition div64 : num -> num -> num := SFdiv 53 1024.

(** The binary64 number nearest to an integer. *)
Definition ofZ (n : Z) : num := binary_normalize 53 1024 n 0 false.

(** The binary64 number of a rational: the correctly rounded quotient of
    numerator and denominator.  It is the number itself when the rational
    is a binary64 number, as every number held in the state is, and the
    value of a decimal literal of the source whose digits, read as an
    integer, stay below 2^53. *)
Definition ofQ (q : Q) : num := div64 (ofZ (Qnum q)) (ofZ (Z.pos (Qden q))).

(** [Math.floor] *)
Definition floor64 (x : num) : num :=
  match x with
  | S754_finite s m e =>
      if 0 <=? e then x
      else
        let n := (if s then Z.neg m else Z.pos m) / 2 ^ (- e) in
        if n =? 0 then S754_zero s else ofZ n
  | _ => x
  end.

(** The integer that a binary64 number is, if it is one. *)
Definition toZ (x : num) : option Z :=
  match x with
  | S754_zero _ => Some 0
  | S754_finite s m e =>
      let n := if s then Z.neg m else Z.pos m in
      if 0 <=? e then Some (n * 2 ^ e)
      else if n mod 2 ^ (- e) =? 0 then Some (n / 2 ^ (- e))
      else None
  | _ => None
  end.

Definition isNaN (x : num) : bool :=
  match x with
  | S754_nan => true
  | _ => false
  end.

(** *** The estimate *)

Definition bodyFatDecimal (st : State) : num :=
  div64 (ofQ (orDefault (bodyFat (profile st)) 25)) (ofZ 100).

Definition lbm (st : State) (today : Z) : num :=
  mul64 (ofQ (currentWeight st today)) (sub64 (ofZ 1) (bodyFatDecimal st)).

Definition bmr (st : State) (today : Z) : num :=
  add64 (ofZ 370) (mul64 (ofQ 21.6) (lbm st today)).

(** The properties that the object literal [multipliers] inherits from
    [Object.prototype]: eleven functions and, under [__proto__], the
    prototype itself. *)
Definition inheritedKeys : list string :=
  [ "constructor"; "hasOwnProperty"; "isPrototypeOf";
    "propertyIsEnumerable"; "toLocaleString"; "toString"; "valueOf";
    "__defineGetter__"; "__defineSetter__"; "__lookupGetter__";
    "__lookupSetter__"; "__proto__" ].

(** [multipliers[p.activityLevel] || 1.55].  An own key gives its
    number; an inherited key gives a function or an object, which is
    truthy and becomes NaN under [*]; any other string gives [undefined]
    and so 1.55. *)
Definition activity (st : State) : num :=
  match multipliers !! activityLevel (profile st) with
  | Some m => ofQ (orDefault m 1.55)
  | None =>
      if existsb (String.eqb (activityLevel (profile st))) inheritedKeys
      then S754_nan
      else ofQ 1.55
  end.

Definition phaseBurn (st : State) (today : Z) : Z :=
  match getPhaseForDate st today with
  | Luteal => 150
  | _ => 0
  end.

(** [today] is [this.runtime.today]. *)
Definition calculateKatchMcArdle (st : State) (today : Z) : num :=
  floor64 (add64 (mul64 (bmr st today) (activity st))
                 (ofZ (phaseBurn st today))).

(** ** Daily log and aggregator: [logWorkout], [getDailyStats] *)

(** [item.k] on a workout object. *)
Definition prop (item : Workout) (k : string) : jsnum :=
  match item !! k with
  | Some v => v
  | None => None
  end.

(** [now] is the value of [Date.now()].  In [{ id: Date.now(),
    ...workout }] the properties of [workout] come last and win. *)
Definition logWorkout (now : Z) (dateStr : Z) (workout : Workout)
    (st : State) : State :=
  let cur := default [] (workouts (logs st) !! dateStr) in
  let entry : Workout := workout ∪ {[ "id" := Some (inject_Z now) ]} in
  set_workouts (<[dateStr := cur ++ [entry]]> (workouts (logs st))) st.

Record Macros := mkMacros
  { m_cals : Q; m_p : Q; m_c : Q; m_f : Q; m_fiber : Q }.

Record DailyStats := mkStats { macros : Macros; burn : Q }.

(** The callback of the first [reduce]. *)
Definition addMacros (acc : Macros) (item : Food.item) : Macros :=
  mkMacros (m_cals acc + orZero (Food.cals item))
           (m_p acc + orZero (Food.p item))
           (m_c acc + orZero (Food.c item))
           (m_f acc + orZero (Food.f item))
           (m_fiber acc + orZero (Food.fiber item)).

(** The callback of the second [reduce]. *)
Definition addBurn (acc : Q) (item : Workout) : Q :=
  (acc + orZero (prop item "burn"))%Q.

Definition getDailyStats (st : State) (dateStr : Z) : DailyStats :=
  let nLogs := default [] (nutrition (logs st) !! dateStr) in
  let wLogs := default [] (workouts (logs st) !! dateStr) in
  mkStats (fold_left addMacros nLogs (mkMacros 0 0 0 0 0))
          (fold_left addBurn wLogs 0%Q).

(** ** Sequences of calls on the event log *)

Inductive Op := OpStart (d : Z) | OpEnd (d : Z).

Definition applyOp (tz : Zone) (st : State) (o : Op) : State :=
  match o with
  | OpStart d => logPeriodStart tz d st
  | OpEnd d => logPeriodEnd d st
  end.

Definition run (tz : Zone) (ops : list Op) (st : State) : State :=
  fold_left (applyOp tz) ops st.

(** ** Order on events *)

Definition dateLe (a b : CycleEvent) : Prop := date a <= date b.
Definition dateLt (a b : CycleEvent) : Prop := date a < date b.

(** ** Notions used to state the properties *)

(** What every reachable log satisfies: dates never decrease along the
    log, and no event occurs twice. *)
Definition logInvariant (st : State) : Prop :=
  Sorted dateLe (events (cycle st)) /\ NoDup (events (cycle st)).

(** The description of the estimator, in the specification's words: the
    day deltas between each Start and the next Start after it, of which
    those strictly between 15 and 50 are accepted. *)
Definition startDates (l : list CycleEvent) : list Z :=
  map date (List.filter isStart l).

(** Differences of neighbours: [[a; b; c]] gives [[b - a; c - b]]. *)
Fixpoint deltas (ds : list Z) : list Z :=
  match ds with
  | a :: (b :: _) as r => (b - a) :: deltas r
  | _ => []
  end.

(** The day deltas between consecutive Start events of a log. *)
Definition cycleDeltas (l : list CycleEvent) : list Z := deltas (startDates l).

(** A delta counts when it is strictly between 15 and 50. *)
Definition acceptedDelta (x : Z) : bool := (15 <? x) && (x <? 50).

Definition accepted (xs : list Z) : list Z := List.filter acceptedDelta xs.

(** Sum of a list of integers. *)
Definition sumZ (xs : list Z) : Z := fold_right Z.add 0 xs.

(** The test that [logPeriodEnd] applies at index [i]: a Start on or
    before the date whose next event is missing or is itself a Start. *)
Definition openStartAt (ev : list CycleEvent) (dateStr : Z) (i : nat) : bool :=
  match ev !! i with
  | Some e =>
      isStart e && (date e <=? dateStr) &&
      match ev !! S i with
      | None => true
      | Some nextEvent => isStart nextEvent
      end
  | None => false
  end.

(** The same test as the specification words it: a Start on or before
    the date whose next event, if any, is not itself a Start. *)
Definition openStartAsWorded (ev : list CycleEvent) (dateStr : Z) (i : nat) : bool :=
  match ev !! i with
  | Some e =>
      isStart e && (date e <=? dateStr) &&
      match ev !! S i with
      | None => true
      | Some nextEvent => negb (isStart nextEvent)
      end
  | None => false
  end.

(** The cycle day as the specification gives it. *)
Definition cycleDay (daysSinceStart avgCycleLength : Z) : Z :=
  ((daysSinceStart - 1) mod avgCycleLength) + 1.

(** Sum of a list of rationals. *)
Definition sumQ (xs : list Q) : Q := fold_right Qplus 0%Q xs.

(** The sum as [reduce] takes it: from 0, left to right. *)
Definition sumLeft (xs : list Q) : Q := fold_left Qplus xs 0%Q.

(** The calories-burned value that [getDailyStats] reads from an entry. *)
Definition burnOf (item : Workout) : Q := orZero (prop item "burn").

(** [logWorkout] called once for each element of [ws], in order; an
    element is the clock value and the workout object of one call. *)
Definition logWorkouts (dateStr : Z) (ws : list (Z * Workout)) (st : State) : State :=
  fold_left (fun s nw => logWorkout (fst nw) dateStr (snd nw) s) ws st.

(** ** Further functions of [RehmaHealthOS] *)

(** [predictNextPeriod].  [new Date(s)] is midnight UTC of the day [s];
    [setDate] and [toDateString] work on the local calendar, where that
    instant falls on the day [s] in a zone at or ahead of UTC and on the
    day before in a zone behind UTC ([west]).  The result is the day that
    [toDateString] prints, [None] for [null]. *)
Definition predictNextPeriod (west : bool) (st : State) : option Z :=
  match List.find isStart (rev (events (cycle st))) with
  | None => None
  | Some lastStart =>
      let localDay := if west then date lastStart - 1 else date lastStart in
      Some (localDay + avgLength (cycle st))
  end.

(** [this.runtime]: the day the page was opened and the cached TDEE. *)
Record Runtime := mkRuntime { today : Z; tdee : num }.

Definition set_weights (w : gmap Z Q) (st : State) : State :=
  mkState (profile st)
          (mkLogs (nutrition (logs st)) (workouts (logs st)) w)
          (cycle st).

Definition set_profile_weight (w : Q) (st : State) : State :=
  mkState (mkProfile w (bodyFat (profile st)) (activityLevel (profile st)))
          (logs st) (cycle st).

Definition set_nutrition (n : gmap Z (list Food.item)) (st : State) : State :=
  mkState (profile st)
          (mkLogs n (workouts (logs st)) (weights (logs st)))
          (cycle st).

(** [setWeight]; [w] is the value of [parseFloat(val)], [None] for NaN.
    The result pairs the state with the runtime cache. *)
Definition setWeight (dateStr : Z) (w : jsnum) (s : State * Runtime)
    : State * Runtime :=
  let '(st, rt) := s in
  match w with
  | None => s
  | Some w =>
      if Qeq_bool w 0 || negb (Qle_bool 20 w) then s
      else
        let st1 := set_weights (<[dateStr := w]> (weights (logs st))) st in
        let st2 := if dateStr =? today rt then set_profile_weight w st1
                   else st1 in
        (st2, mkRuntime (today rt) (calculateKatchMcArdle st2 (today rt)))
  end.

(** [removeFood] *)
Definition removeFood (dateStr : Z) (id : Z) (st : State) : State :=
  match nutrition (logs st) !! dateStr with
  | Some l =>
      set_nutrition
        (<[dateStr := List.filter (fun f => negb (Food.id f =? id)) l]>
           (nutrition (logs st))) st
  | None => st
  end.


(** The argument of [logFood], and an entry of the food library: the
    name and five values as the form delivered them. *)
Record RawFood (raw : Type) := mkRawFood
  { rname : string; rcals : raw; rp : raw; rc : raw; rf : raw; rfiber : raw }.

Arguments mkRawFood {raw}.
Arguments rname {raw}.
Arguments rcals {raw}.
Arguments rp {raw}.
Arguments rc {raw}.
Arguments rf {raw}.
Arguments rfiber {raw}.

(** What [logFood] takes from the JavaScript runtime: the values a form
    field can hold with [parseInt], [parseFloat] and falsiness on them,
    the number 0 of [food.fiber || 0],
    [String.prototype.toLowerCase], and the in-place sort of the library
    by [a.name.localeCompare(b.name)], which depends on the locale and of
    which only that it permutes the array is used. *)
Class JsEnv := mkJsEnv
  { raw : Type;
    parseInt : raw -> jsnum;
    parseFloat : raw -> jsnum;
    falsy : raw -> bool;
    rawZero : raw;
    parseFloat_rawZero : parseFloat rawZero = Some 0%Q;
    toLowerCase : string -> string;
    localeSort : list (RawFood raw) -> list (RawFood raw);
    localeSort_perm : forall l, Permutation (localeSort l) l }.

(** The state together with [this.state.library]. *)
Record Store `{JsEnv} := mkStore
  { state : State; library : list (RawFood raw) }.

Arguments mkStore {_}.

(** The callback of [findIndex]. *)
Definition sameName `{JsEnv} (food f : RawFood raw) : bool :=
  String.eqb (toLowerCase (rname f)) (toLowerCase (rname food)).

(** The entry pushed on the day's nutrition list; [now] is [Date.now()]. *)
Definition foodEntry `{JsEnv} (now : Z) (food : RawFood raw) : Food.item :=
  Food.mk now (rname food)
          (parseInt (rcals food))
          (parseFloat (rp food))
          (parseFloat (rc food))
          (parseFloat (rf food))
          (parseFloat (if falsy (rfiber food) then rawZero else rfiber food)).

Definition logFood `{JsEnv} (now : Z) (dateStr : Z) (food : RawFood raw)
    (s : Store) : Store :=
  let st := state s in
  let cur := default [] (nutrition (logs st) !! dateStr) in
  let st' := set_nutrition
               (<[dateStr := cur ++ [foodEntry now food]]> (nutrition (logs st)))
               st in
  let lib' := if existsb (sameName food) (library s) then library s
              else localeSort (library s ++ [food]) in
  mkStore st' lib'.

(** A runtime to compute with: form values are rationals, names are
    compared as they are, and the library is kept in insertion order of a
    sort by name. *)
Fixpoint insertByName (x : RawFood Q) (l : list (RawFood Q)) : list (RawFood Q) :=
  match l with
  | [] => [x]
  | y :: r =>
      if String.leb (rname x) (rname y) then x :: y :: r
      else y :: insertByName x r
  end.

Fixpoint sortByName (l : list (RawFood Q)) : list (RawFood Q) :=
  match l with
  | [] => []
  | x :: r => insertByName x (sortByName r)
  end.

(** Lower-casing of the letters A to Z. *)
Definition lowerAscii (ch : Ascii.ascii) : Ascii.ascii :=
  let n := Ascii.nat_of_ascii ch in
  if ((65 <=? n) && (n <=? 90))%nat then Ascii.ascii_of_nat (n + 32) else ch.

Fixpoint lowerString (s : string) : string :=
  match s with
  | EmptyString => EmptyString
  | String ch r => String (lowerAscii ch) (lowerString r)
  end.

(** [parseInt] of a number drops its fraction. *)
Definition truncQ (q : Q) : jsnum :=
  Some (inject_Z (Z.quot (Qnum q) (Z.pos (Qden q)))).

Definition plainEnv : JsEnv.
Proof.
  refine (mkJsEnv Q truncQ Some (fun q => Qeq_bool q 0) 0%Q eq_refl
                  lowerString sortByName _).
  assert (Hins : forall x l, Permutation (insertByName x l) (x :: l)).
  { intros x l. induction l as [|y r IH]; simpl.
    - apply Permutation_refl.
    - destruct (String.leb (rname x) (rname y)).
      + apply Permutation_refl.
      + apply (perm_trans (perm_skip y IH)). apply perm_swap. }
  induction l as [|x r IH]; simpl.
  - apply perm_nil.
  - apply (perm_trans (Hins x (sortByName r))). now apply perm_skip.
Defined.

(** [logFood] called once for each element of [fs], in order; an element
    is the clock value, the date and the food of one call. *)
Definition logFoods `{JsEnv} (fs : list (Z * Z * RawFood raw)) (s : Store) : Store :=
  fold_left (fun s x => logFood (fst (fst x)) (snd (fst x)) (snd x) s) fs s.

(** The key under which the library holds a food. *)
Definition lowerName `{JsEnv} (f : RawFood raw) : string :=
  toLowerCase (rname f).

(** ** The earlier tracker: [RehmaFitnessTracker] *)

Module Tracker.

Inductive PhaseName := menstrual | follicular | ovulation | luteal.

(** Position of a phase in the cycle. *)
Definition rank (p : PhaseName) : Z :=
  match p with
  | menstrual => 0
  | follicular => 1
  | ovulation => 2
  | luteal => 3
  end.

(** [weights]: index + 1 for each entry of the history. *)
Definition weightsOf (history : list Z) : list Z :=
  map (fun index => Z.of_nat index + 1) (seq 0 (length history)).

(** [history.reduce((sum, length, index) => sum + length *
    weights[index], 0)] *)
Definition weightedSumOf (history : list Z) : Z :=
  fold_left (fun sum lw => sum + fst lw * snd lw)
            (combine history (weightsOf history)) 0.

(** [predictCycleLength] on [this.cycleData.cycleHistory], a list of
    whole day counts. *)
Definition predictCycleLength (history : list Z) : Z :=
  if (length history <? 3)%nat then 28
  else
    let weightedSum := weightedSumOf history in
    let weightSum := fold_left Z.add (weightsOf history) 0 in
    let predicted := jsRound weightedSum weightSum in
    Z.max 21 (Z.min 35 predicted).

(** [getCyclePhase]; [Math.round(cycleLength * 0.25)] is
    [jsRound cycleLength 4]. *)
Definition getCyclePhase (cycleDay cycleLength : Z) : PhaseName :=
  let menstrualDays := 5 in
  let follicularDays := jsRound cycleLength 4 - 5 in
  let ovulationDays := 3 in
  let currentDay := cycleDay in
  if currentDay <=? menstrualDays then menstrual
  else
    let currentDay := currentDay - menstrualDays in
    if currentDay <=? follicularDays then follicular
    else
      let currentDay := currentDay - follicularDays in
      if currentDay <=? ovulationDays then ovulation
      else luteal.

(** The object that [calculateCycleDay] returns. *)
Record CycleDayInfo := mkInfo
  { cycleDay : Z; cycleLength : Z; phase : PhaseName; daysSinceStart : Z }.

(** [calculateCycleDay]; [date] and [lastStart] are instants in
    milliseconds, [lastStart] being [this.cycleData.lastPeriodStart]. *)
Definition calculateCycleDay (history : list Z) (lastStart date : Z)
    : CycleDayInfo :=
  let daysDiff := (date - lastStart) / (1000 * 60 * 60 * 24) in
  let predictedLength := predictCycleLength history in
  let cycleDay := Z.rem daysDiff predictedLength + 1 in
  mkInfo cycleDay predictedLength (getCyclePhase cycleDay predictedLength)
         daysDiff.

End Tracker.

Example isoDate_epoch : isoDate 1970 1 1 = 0.
Proof. reflexivity. Qed.

Example isoDate_2024 : isoDate 2024 1 1 = 19723.
Proof. reflexivity. Qed.

Example isoDate_leap : isoDate 2024 3 1 - isoDate 2024 2 28 = 2.
Proof. reflexivity. Qed.

(** Five days on from 2024-01-01 and from 2024-01-29. *)
Example isoDate_plus5 :
  isoDate 2024 1 1 + 5 = isoDate 2024 1 6 /\
  isoDate 2024 1 29 + 5 = isoDate 2024 2 3.
Proof. split; reflexivity. Qed.

(** 88 / 3 rounds down to 29, and the half 57 / 2 = 28.5 rounds up. *)
Example jsRound_examples : jsRound 88 3 = 29 /\ jsRound 57 2 = 29.
Proof. split; reflexivity. Qed.

(** The sort is stable: an End and a Start on one date keep their order. *)
Example sortByDate_stable :
  sortByDate [Start 9; End 3; Start 3; Start 1] = [Start 1; End 3; Start 3; Start 9]
  /\ sortByDate [Start 9; Start 3; End 3; Start 1] = [Start 1; Start 3; End 3; Start 9].
Proof. split; reflexivity. Qed.

(** An out-of-order Start: the log after Start(01-20) then Start(01-01). *)
Example logPeriodStart_earlier :
  events (cycle (run utc [OpStart (isoDate 2024 1 20); OpStart (isoDate 2024 1 1)]
                     getFactoryDefaults)) =
    [Start (isoDate 2024 1 1); Start (isoDate 2024 1 20)].
Proof. reflexivity. Qed.

Example moderate_luteal :
  toZ (calculateKatchMcArdle
         (set_events [Start (isoDate 2024 1 1)] getFactoryDefaults)
         (isoDate 2024 1 20)) = Some 2420.
Proof. vm_compute. reflexivity. Qed.

(** Binary64 at work: 0.1 + 0.2 is not 0.3, and the floor of -0.5 is -1. *)
Example binary64_examples :
  add64 (ofQ 0.1) (ofQ 0.2) <> ofQ 0.3 /\
  add64 (ofQ 0.1) (ofQ 0.2) = S754_finite false 5404319552844596 (-54) /\
  toZ (floor64 (ofQ (-0.5))) = Some (-1) /\
  toZ (floor64 (ofQ 2270.936)) = Some 2270 /\
  floor64 S754_nan = S754_nan.
Proof. vm_compute. repeat split; discriminate. Qed.

(** Weight 156.25 kg, body fat 56 %, level 'sedentary', no period logged:
    in exact arithmetic bmr is 1855 and the product 2226; in binary64 the
    product falls just below and the estimate is 2225. *)
Example sedentary_no_period :
  let st := mkState (mkProfile 156.25 56 "sedentary")
              (logs getFactoryDefaults) (cycle getFactoryDefaults) in
  phaseBurn st (isoDate 2024 1 20) = 0 /\
  toZ (calculateKatchMcArdle st (isoDate 2024 1 20)) = Some 2225.
Proof. vm_compute. split; reflexivity. Qed.

(** * Properties *)

(** ** The stable sort *)

Section Sorting.

#[local] Instance dateLe_trans : Transitive dateLe.
Proof. unfold dateLe. intros a b c Hab Hbc. lia. Qed.

Lemma insertByDate_perm e l : Permutation (insertByDate e l) (e :: l).
Proof.
  induction l as [|x r IH]; simpl.
  - reflexivity.
  - destruct (date e <=? date x).
    + reflexivity.
    + rewrite IH. apply perm_swap.
Qed.

Lemma sortByDate_perm l : Permutation (sortByDate l) l.
Proof.
  induction l as [|e r IH]; simpl.
  - reflexivity.
  - rewrite insertByDate_perm. now rewrite IH.
Qed.

Lemma insertByDate_hd e y l :
  dateLe y e -> HdRel dateLe y l -> HdRel dateLe y (insertByDate e l).
Proof.
  intros Hye Hl. destruct l as [|x r]; simpl.
  - now constructor.
  - destruct (date e <=? date x); constructor; trivial.
    now inversion Hl.
Qed.

Lemma insertByDate_sorted e l :
  Sorted dateLe l -> Sorted dateLe (insertByDate e l).
Proof.
  induction 1 as [|x r Hr IH Hhd]; simpl.
  - repeat constructor.
  - destruct (date e <=? date x) eqn:E.
    + constructor; [now constructor|]. constructor.
      unfold dateLe. lia.
    + constructor; [exact IH|]. apply insertByDate_hd; trivial.
      unfold dateLe. lia.
Qed.

Lemma sortByDate_sorted l : Sorted dateLe (sortByDate l).
Proof.
  induction l as [|e r IH]; simpl.
  - constructor.
  - now apply insertByDate_sorted.
Qed.

(** Sorting a sorted log changes nothing: equal dates keep their order. *)
Lemma sortByDate_sorted_id l : Sorted dateLe l -> sortByDate l = l.
Proof.
  induction 1 as [|x r Hr IH Hhd]; simpl; trivial.
  rewrite IH. destruct Hhd as [|y r' Hxy]; simpl; trivial.
  unfold dateLe in Hxy.
  destruct (date x <=? date y) eqn:E; trivial. lia.
Qed.

Lemma Sorted_snoc (R : CycleEvent -> CycleEvent -> Prop) l a b :
  Sorted R (l ++ [a]) -> R a b -> Sorted R (l ++ [a; b]).
Proof.
  intros Hs Hab. induction l as [|x r IH]; simpl in *.
  - repeat constructor. exact Hab.
  - inversion Hs as [|? ? Hr Hhd]; subst. constructor.
    + now apply IH.
    + destruct r; simpl in *; inversion Hhd; subst; now constructor.
Qed.

(** In a sorted log the last event carries the greatest date. *)
Lemma Sorted_last_max l x e :
  Sorted dateLe l -> last l = Some x -> In e l -> date e <= date x.
Proof.
  intros Hs Hlast Hin.
  apply last_Some in Hlast as [l' ->].
  apply Sorted_StronglySorted in Hs; [|exact dateLe_trans].
  induction l' as [|y r IH]; simpl in *.
  - destruct Hin as [->|[]]. lia.
  - inversion Hs as [|? ? Hr Hall]; subst.
    destruct Hin as [->|Hin].
    + rewrite Forall_forall in Hall. apply Hall.
      apply list_elem_of_In, in_or_app. right. now left.
    + now apply IH.
Qed.

End Sorting.

(** ** What each operation does to the event log *)

Lemma events_set_events ev st : events (cycle (set_events ev st)) = ev.
Proof. reflexivity. Qed.

Lemma events_recalculateCycleStats st :
  events (cycle (recalculateCycleStats st)) = events (cycle st).
Proof.
  unfold recalculateCycleStats.
  destruct (Z.of_nat (length (events (cycle st))) <? 3); trivial.
  destruct (statsLoop (events (cycle st)) (0, 0)) as [t c].
  now destruct (0 <? c).
Qed.

Lemma events_sortCycleEvents st :
  events (cycle (sortCycleEvents st)) = sortByDate (events (cycle st)).
Proof.
  unfold sortCycleEvents. now rewrite events_recalculateCycleStats.
Qed.

Lemma events_pushEvent e st :
  events (cycle (pushEvent e st)) = events (cycle st) ++ [e].
Proof. reflexivity. Qed.

(** The synthesized End falls four or five days after the Start. *)
Lemma syntheticEnd_range (tz : Zone) s :
  s + 4 <= syntheticEnd tz s <= s + 5.
Proof. unfold syntheticEnd. destruct (clockForward tz s); lia. Qed.

(** [closeOpenCycles] leaves the log alone or appends one End. *)
Lemma events_closeOpenCycles (tz : Zone) d st :
  events (cycle (closeOpenCycles tz d st)) = events (cycle st) \/
  exists s, last (events (cycle st)) = Some (Start s) /\
            syntheticEnd tz s < d /\
            events (cycle (closeOpenCycles tz d st)) =
              events (cycle st) ++ [End (syntheticEnd tz s)].
Proof.
  unfold closeOpenCycles.
  destruct (last (events (cycle st))) as [[s t]|] eqn:Hlast; [|now left].
  destruct t; simpl; [|now left].
  destruct (s <? d); simpl; [|now left].
  destruct (syntheticEnd tz s <? d) eqn:E; [|now left].
  right. exists s. repeat split; trivial. lia.
Qed.

Lemma onDateOfType_true d t e :
  onDateOfType d t e = true <-> e = mkEvent d t.
Proof.
  unfold onDateOfType. destruct e as [d' t']; simpl.
  rewrite andb_true_iff, Z.eqb_eq. split.
  - intros [-> H]. now destruct t', t.
  - intros [= -> ->]. split; trivial. now destruct t.
Qed.

Lemma existsb_onDateOfType d t l :
  existsb (onDateOfType d t) l = true <-> In (mkEvent d t) l.
Proof.
  rewrite existsb_exists. split.
  - intros [e [Hin He]]. apply onDateOfType_true in He. now subst.
  - intros Hin. exists (mkEvent d t). split; trivial.
    now apply onDateOfType_true.
Qed.

(** After [logPeriodStart d] the log holds a Start on [d]. *)
Lemma logPeriodStart_has_start (tz : Zone) d st :
  existsb (onDateOfType d start) (events (cycle (logPeriodStart tz d st))) = true.
Proof.
  unfold logPeriodStart.
  destruct (existsb (onDateOfType d start) (events (cycle st))) eqn:E; trivial.
  apply existsb_onDateOfType.
  rewrite events_sortCycleEvents, events_pushEvent.
  apply (Permutation_in _ (Permutation_sym (sortByDate_perm _))).
  apply in_or_app. right. now left.
Qed.

(** C7. For every date [d] and every state, [logPeriodStart d] called
    twice in succession leaves the same state, hence the same Event Log,
    as called once: the second call finds the Start on [d] and returns. *)
Theorem logPeriodStart_idempotent (tz : Zone) (d : Z) (st : State) :
  logPeriodStart tz d (logPeriodStart tz d st) = logPeriodStart tz d st /\
  events (cycle (logPeriodStart tz d (logPeriodStart tz d st))) =
    events (cycle (logPeriodStart tz d st)).
Proof.
  assert (H : logPeriodStart tz d (logPeriodStart tz d st) = logPeriodStart tz d st).
  { unfold logPeriodStart at 1. now rewrite logPeriodStart_has_start. }
  split; [exact H | now rewrite H].
Qed.

(** ** The invariant of the event log *)

Lemma NoDup_snoc (l : list CycleEvent) e :
  NoDup l -> ~ In e l -> NoDup (l ++ [e]).
Proof.
  intros Hl He. apply NoDup_app. repeat split; trivial.
  - intros x Hx Hxe. apply list_elem_of_In in Hx.
    apply list_elem_of_In in Hxe. destruct Hxe as [->|[]]. now apply He.
  - apply NoDup_singleton.
Qed.

Lemma logInvariant_sorted_push e st :
  NoDup (events (cycle st)) -> ~ In e (events (cycle st)) ->
  logInvariant (sortCycleEvents (pushEvent e st)).
Proof.
  intros Hnd Hin. unfold logInvariant.
  rewrite events_sortCycleEvents, events_pushEvent. split.
  - apply sortByDate_sorted.
  - rewrite sortByDate_perm. now apply NoDup_snoc.
Qed.

Lemma logPeriodStart_invariant (tz : Zone) d st :
  logInvariant st -> logInvariant (logPeriodStart tz d st).
Proof.
  intros [Hs Hnd]. unfold logPeriodStart.
  destruct (existsb (onDateOfType d start) (events (cycle st))) eqn:E.
  - now split.
  - assert (Hd : ~ In (Start d) (events (cycle st))).
    { intros Hin. apply existsb_onDateOfType in Hin. congruence. }
    destruct (events_closeOpenCycles tz d st) as [Heq | [s [Hlast [Hlt Heq]]]].
    + apply logInvariant_sorted_push; now rewrite Heq.
    + apply logInvariant_sorted_push; rewrite Heq.
      * apply NoDup_snoc; trivial. intros Hin.
        pose proof (Sorted_last_max _ _ _ Hs Hlast Hin) as Hmax.
        pose proof (syntheticEnd_range tz s).
        simpl in Hmax. lia.
      * intros Hin. apply in_app_or in Hin as [Hin | [Hin | []]].
        -- now apply Hd.
        -- discriminate Hin.
Qed.

Lemma logPeriodEnd_invariant d st :
  logInvariant st -> logInvariant (logPeriodEnd d st).
Proof.
  intros [Hs Hnd]. unfold logPeriodEnd.
  destruct (existsb (onDateOfType d end_) (events (cycle st))) eqn:E.
  - now split.
  - destruct (findTarget _ _ _); [|now split].
    apply logInvariant_sorted_push; trivial.
    intros Hin. apply existsb_onDateOfType in Hin. congruence.
Qed.

Lemma run_snoc (tz : Zone) ops o st : run tz (ops ++ [o]) st = applyOp tz (run tz ops st) o.
Proof. unfold run. now rewrite fold_left_app. Qed.

(** C6, as the code has it. After every sequence of [logPeriodStart] and
    [logPeriodEnd] calls from a state whose log is empty, the Event Log
    is sorted ascending by date in the weak sense (each date is at most the
    next one) and holds no event twice; events of different kinds may
    share a date. *)
Theorem run_log_sorted (tz : Zone) (st0 : State) (ops : list Op) :
  events (cycle st0) = [] ->
  Sorted dateLe (events (cycle (run tz ops st0))) /\
  NoDup (events (cycle (run tz ops st0))).
Proof.
  intros Hempty.
  change (logInvariant (run tz ops st0)).
  induction ops as [|o ops IH] using rev_ind.
  - unfold logInvariant, run. simpl. rewrite Hempty. split; constructor.
  - rewrite run_snoc. destruct o as [d|d]; simpl.
    + now apply logPeriodStart_invariant.
    + now apply logPeriodEnd_invariant.
Qed.

(** Four calls from the factory state; the log they leave is sorted. *)
Lemma run_log_sorted_witness :
  Sorted dateLe
    (events (cycle (run utc [OpStart (isoDate 2024 1 20); OpStart (isoDate 2024 1 1);
                         OpEnd (isoDate 2024 1 3); OpStart (isoDate 2024 1 3)]
                        getFactoryDefaults))).
Proof.
  apply (run_log_sorted utc getFactoryDefaults
           [OpStart (isoDate 2024 1 20); OpStart (isoDate 2024 1 1);
            OpEnd (isoDate 2024 1 3); OpStart (isoDate 2024 1 3)]).
  reflexivity.
Defined.

(** C6, as the specification words it, fails: logging a period from
    2024-01-01 to 2024-01-03 and a new Start on 2024-01-03 leaves an End
    and a Start on the same date, so the log is not strictly sorted. *)
Lemma run_log_not_strictly_sorted :
  let ops := [OpStart (isoDate 2024 1 1); OpEnd (isoDate 2024 1 3);
              OpStart (isoDate 2024 1 3)] in
  events (cycle (run utc ops getFactoryDefaults)) =
    [Start (isoDate 2024 1 1); End (isoDate 2024 1 3);
     Start (isoDate 2024 1 3)] /\
  ~ Sorted dateLt (events (cycle (run utc ops getFactoryDefaults))).
Proof.
  intros ops.
  assert (E : events (cycle (run utc ops getFactoryDefaults)) =
              [Start (isoDate 2024 1 1); End (isoDate 2024 1 3);
               Start (isoDate 2024 1 3)]) by reflexivity.
  split; [exact E|]. rewrite E. intros H.
  inversion H as [|? ? H1 _]; subst.
  inversion H1 as [|? ? _ H2]; subst.
  inversion H2 as [|? ? H3]; subst.
  unfold dateLt in H3. simpl in H3. lia.
Qed.

(** ** Cycle statistics against their description *)

Lemma accepted_cons x xs :
  accepted (x :: xs) =
    if acceptedDelta x then x :: accepted xs else accepted xs.
Proof. reflexivity. Qed.

Lemma find_filter_hd {A} (f : A -> bool) (l : list A) :
  List.find f l = hd_error (List.filter f l).
Proof.
  induction l as [|x r IH]; simpl; trivial. now destruct (f x).
Qed.

Lemma cycleDeltas_cons_start e rest :
  isStart e = true ->
  cycleDeltas (e :: rest) =
    match List.find isStart rest with
    | Some nextStart => (date nextStart - date e) :: cycleDeltas rest
    | None => []
    end.
Proof.
  intros He. unfold cycleDeltas, startDates. simpl. rewrite He.
  rewrite find_filter_hd.
  now destruct (List.filter isStart rest).
Qed.

Lemma cycleDeltas_no_start rest :
  List.find isStart rest = None -> cycleDeltas rest = [].
Proof.
  rewrite find_filter_hd. unfold cycleDeltas, startDates.
  now destruct (List.filter isStart rest).
Qed.

Lemma cycleDeltas_cons_end e rest :
  isStart e = false -> cycleDeltas (e :: rest) = cycleDeltas rest.
Proof.
  intros He. unfold cycleDeltas, startDates. simpl. now rewrite He.
Qed.

(** The loop of [recalculateCycleStats] adds up the accepted deltas and
    counts them. *)
Lemma statsLoop_spec l t c :
  statsLoop l (t, c) =
    (t + sumZ (accepted (cycleDeltas l)),
     c + Z.of_nat (length (accepted (cycleDeltas l)))).
Proof.
  revert t c. induction l as [|e rest IH]; intros t c.
  - simpl. f_equal; lia.
  - destruct rest as [|e' rest'].
    + assert (E : cycleDeltas [e] = []).
      { unfold cycleDeltas, startDates. simpl. now destruct (isStart e). }
      rewrite E. simpl. f_equal; lia.
    + change (statsLoop (e :: e' :: rest') (t, c)) with
        (statsLoop (e' :: rest')
           (if isStart e then
              match List.find isStart (e' :: rest') with
              | Some nextStart =>
                  let days := date nextStart - date e in
                  if (15 <? days) && (days <? 50)
                  then (fst (t, c) + days, snd (t, c) + 1)
                  else (t, c)
              | None => (t, c)
              end
            else (t, c))).
      destruct (isStart e) eqn:He.
      * rewrite (cycleDeltas_cons_start _ _ He).
        destruct (List.find isStart (e' :: rest')) as [ns|] eqn:Hf.
        -- cbv zeta. rewrite accepted_cons.
           change ((15 <? date ns - date e) && (date ns - date e <? 50))
             with (acceptedDelta (date ns - date e)).
           destruct (acceptedDelta (date ns - date e)).
           ++ rewrite IH. simpl fst; simpl snd.
              simpl sumZ. simpl length. f_equal; lia.
           ++ now rewrite IH.
        -- rewrite IH, (cycleDeltas_no_start _ Hf). reflexivity.
      * rewrite IH, (cycleDeltas_cons_end _ _ He). reflexivity.
Qed.

(** C5. For every event log with at least 3 events whose consecutive
    Start events are separated by the day deltas 28, 29, 5 and 31,
    recomputing the statistics accepts 28, 29 and 31 (5 is rejected), sets
    the average cycle length to round((28+29+31)/3) = 29, and leaves the
    log as it is. *)
Theorem recalculateCycleStats_outlier (st : State) :
  (3 <= length (events (cycle st)))%nat ->
  cycleDeltas (events (cycle st)) = [28; 29; 5; 31] ->
  accepted (cycleDeltas (events (cycle st))) = [28; 29; 31] /\
  avgLength (cycle (recalculateCycleStats st)) = jsRound (28 + 29 + 31) 3 /\
  avgLength (cycle (recalculateCycleStats st)) = 29 /\
  events (cycle (recalculateCycleStats st)) = events (cycle st).
Proof.
  intros Hlen Hd.
  assert (Ha : accepted (cycleDeltas (events (cycle st))) = [28; 29; 31])
    by now rewrite Hd.
  split; [exact Ha|].
  assert (E : avgLength (cycle (recalculateCycleStats st)) = 29).
  { unfold recalculateCycleStats.
    destruct (Z.of_nat (length (events (cycle st))) <? 3) eqn:E3; [lia|].
    rewrite statsLoop_spec, Ha. reflexivity. }
  repeat split; trivial. apply events_recalculateCycleStats.
Qed.

(** The log of C5's scenario, with the periods closed: Starts on
    2024-01-01, 01-29, 02-27, 03-03 and 04-03. *)
Lemma recalculateCycleStats_outlier_witness :
  let st := set_events
    [Start (isoDate 2024 1 1); End (isoDate 2024 1 6);
     Start (isoDate 2024 1 29); End (isoDate 2024 2 3);
     Start (isoDate 2024 2 27); Start (isoDate 2024 3 3);
     End (isoDate 2024 3 8); Start (isoDate 2024 4 3)]
    getFactoryDefaults in
  avgLength (cycle (recalculateCycleStats st)) = 29.
Proof.
  intros st.
  apply (recalculateCycleStats_outlier st); [simpl; lia | reflexivity].
Defined.

(** C10. If the log has at least 3 events but no two consecutive Starts
    are separated by a day delta strictly between 15 and 50, recomputing
    the statistics returns the state it was given: the stored average
    cycle length and everything else are unchanged. *)
Theorem recalculateCycleStats_no_sample (st : State) :
  (3 <= length (events (cycle st)))%nat ->
  Forall (fun x => ~ (15 < x < 50)) (cycleDeltas (events (cycle st))) ->
  recalculateCycleStats st = st /\
  avgLength (cycle (recalculateCycleStats st)) = avgLength (cycle st).
Proof.
  intros Hlen Hno.
  assert (Ha : accepted (cycleDeltas (events (cycle st))) = []).
  { induction Hno as [|x xs Hx _ IH]; trivial.
    unfold accepted. simpl. unfold acceptedDelta at 1.
    destruct (15 <? x) eqn:E1; destruct (x <? 50) eqn:E2; simpl;
      try exact IH.
    exfalso. apply Hx. lia. }
  assert (E : recalculateCycleStats st = st).
  { unfold recalculateCycleStats.
    destruct (Z.of_nat (length (events (cycle st))) <? 3); trivial.
    rewrite statsLoop_spec, Ha. reflexivity. }
  split; [exact E | now rewrite E].
Qed.

(** A log of two short cycles (deltas 10 and 60) keeps the average 29. *)
Lemma recalculateCycleStats_no_sample_witness :
  let st := set_events
    [Start (isoDate 2024 1 1); Start (isoDate 2024 1 11);
     End (isoDate 2024 1 16); Start (isoDate 2024 3 11)]
    getFactoryDefaults in
  recalculateCycleStats st = st /\
  avgLength (cycle (recalculateCycleStats st)) = 29.
Proof.
  intros st.
  apply (recalculateCycleStats_no_sample st).
  - simpl. lia.
  - change (cycleDeltas (events (cycle st))) with [10; 60].
    repeat constructor; lia.
Defined.

(** ** Auto-close on a new Start *)

Lemma no_start_after_last st d s :
  Sorted dateLe (events (cycle st)) ->
  last (events (cycle st)) = Some (Start s) -> s < d ->
  existsb (onDateOfType d start) (events (cycle st)) = false.
Proof.
  intros Hs Hlast Hlt.
  destruct (existsb _ _) eqn:E; trivial.
  apply existsb_onDateOfType in E.
  pose proof (Sorted_last_max _ _ _ Hs Hlast E) as Hmax.
  simpl in Hmax. lia.
Qed.

(** On a sorted log whose most recent event is a Start on [s] before the
    new date [d], [logPeriodStart] appends an End on the synthesized date
    and then the new Start when that date is before [d], and the new Start
    alone otherwise. *)
Lemma logPeriodStart_after_open_start (tz : Zone) st d l s :
  events (cycle st) = l ++ [Start s] ->
  Sorted dateLe (events (cycle st)) ->
  s < d ->
  events (cycle (logPeriodStart tz d st)) =
    if syntheticEnd tz s <? d
    then l ++ [Start s; End (syntheticEnd tz s); Start d]
    else l ++ [Start s; Start d].
Proof.
  intros Hev Hs Hlt.
  assert (Hlast : last (events (cycle st)) = Some (Start s))
    by (rewrite Hev; apply last_snoc).
  pose proof (syntheticEnd_range tz s) as Hr.
  unfold logPeriodStart.
  rewrite (no_start_after_last st d s Hs Hlast Hlt).
  rewrite events_sortCycleEvents, events_pushEvent.
  unfold closeOpenCycles. rewrite Hlast. simpl.
  assert (E : (s <? d) = true) by lia. rewrite E.
  rewrite Hev in Hs.
  destruct (syntheticEnd tz s <? d) eqn:E5.
  - rewrite events_pushEvent, Hev, <- !app_assoc. simpl.
    apply sortByDate_sorted_id.
    change (l ++ [Start s; End (syntheticEnd tz s); Start d])
      with (l ++ [Start s] ++ [End (syntheticEnd tz s); Start d]).
    rewrite app_assoc. apply Sorted_snoc.
    + rewrite <- app_assoc. apply Sorted_snoc; trivial.
      unfold dateLe; simpl; lia.
    + unfold dateLe; simpl; lia.
  - rewrite Hev, <- app_assoc. simpl.
    apply sortByDate_sorted_id. apply Sorted_snoc; trivial.
    unfold dateLe; simpl; lia.
Qed.

(** Where the local clocks are not set forward over the five days, the
    End is synthesized five days after the open Start: on a sorted log
    whose most recent event is a Start on [s] before the new date [d], the
    call appends an End on [s + 5] and then the new Start when
    [s + 5 < d], and the new Start alone when [s + 5 >= d]; and when the
    most recent event is not a Start before [d], in any zone, no End is
    synthesized. *)
Theorem logPeriodStart_autoclose (tz : Zone) :
  (forall st d l s,
     clockForward tz s = false ->
     events (cycle st) = l ++ [Start s] ->
     Sorted dateLe (events (cycle st)) ->
     s < d ->
     events (cycle (logPeriodStart tz d st)) =
       if s + 5 <? d then l ++ [Start s; End (s + 5); Start d]
       else l ++ [Start s; Start d]) /\
  (forall st d,
     existsb (onDateOfType d start) (events (cycle st)) = false ->
     (forall s, last (events (cycle st)) = Some (Start s) -> d <= s) ->
     events (cycle (logPeriodStart tz d st)) =
       sortByDate (events (cycle st) ++ [Start d])).
Proof.
  split.
  - intros st d l s Hclock Hev Hs Hlt.
    rewrite (logPeriodStart_after_open_start tz st d l s Hev Hs Hlt).
    unfold syntheticEnd. now rewrite Hclock.
  - intros st d Hex Hlast. unfold logPeriodStart. rewrite Hex.
    rewrite events_sortCycleEvents, events_pushEvent.
    destruct (events_closeOpenCycles tz d st) as [-> | [s [Hl [Hlt _]]]]; trivial.
    specialize (Hlast s Hl). pose proof (syntheticEnd_range tz s). lia.
Qed.

(** An earlier closed period, then Start(2024-01-01) left open, then a
    Start on 2024-01-20, in London: no clock change in January. *)
Lemma logPeriodStart_autoclose_witness :
  events (cycle (logPeriodStart london2024 (isoDate 2024 1 20)
    (set_events [Start (isoDate 2023 12 1); End (isoDate 2023 12 6);
                 Start (isoDate 2024 1 1)] getFactoryDefaults))) =
  [Start (isoDate 2023 12 1); End (isoDate 2023 12 6);
   Start (isoDate 2024 1 1); End (isoDate 2024 1 6);
   Start (isoDate 2024 1 20)].
Proof.
  apply (proj1 (logPeriodStart_autoclose london2024)
           (set_events [Start (isoDate 2023 12 1); End (isoDate 2023 12 6);
                        Start (isoDate 2024 1 1)] getFactoryDefaults)
           (isoDate 2024 1 20)
           [Start (isoDate 2023 12 1); End (isoDate 2023 12 6)]
           (isoDate 2024 1 1)).
  - reflexivity.
  - reflexivity.
  - simpl. repeat (apply Sorted_cons || apply HdRel_cons || apply HdRel_nil
                   || apply Sorted_nil); apply Z.leb_le; reflexivity.
  - reflexivity.
Defined.

(** C3. The scenario of the specification holds: from the log that holds
    only Start(2024-01-01), [logPeriodStart] on 2024-01-20 gives
    Start(2024-01-01), End(2024-01-06), Start(2024-01-20), in London as in
    a zone without clock changes.  It fails across a clock change, where
    the code misses the five days of its own comment: in London, from the
    log that holds only Start(2024-03-29), [logPeriodStart] on 2024-04-03
    writes an End on 2024-04-02, four days after the Start, where an End
    five days after the Start would not be strictly before the new Start
    and none is written in a zone without clock changes. *)
Theorem logPeriodStart_autoclose_clock_change :
  events (cycle (logPeriodStart utc (isoDate 2024 1 20)
                   (set_events [Start (isoDate 2024 1 1)] getFactoryDefaults))) =
    [Start (isoDate 2024 1 1); End (isoDate 2024 1 6);
     Start (isoDate 2024 1 20)] /\
  events (cycle (logPeriodStart london2024 (isoDate 2024 1 20)
                   (set_events [Start (isoDate 2024 1 1)] getFactoryDefaults))) =
    [Start (isoDate 2024 1 1); End (isoDate 2024 1 6);
     Start (isoDate 2024 1 20)] /\
  events (cycle (logPeriodStart london2024 (isoDate 2024 4 3)
                   (set_events [Start (isoDate 2024 3 29)] getFactoryDefaults))) =
    [Start (isoDate 2024 3 29); End (isoDate 2024 4 2);
     Start (isoDate 2024 4 3)] /\
  isoDate 2024 4 2 = isoDate 2024 3 29 + 4 /\
  isoDate 2024 3 29 + 5 = isoDate 2024 4 3 /\
  events (cycle (logPeriodStart utc (isoDate 2024 4 3)
                   (set_events [Start (isoDate 2024 3 29)] getFactoryDefaults))) =
    [Start (isoDate 2024 3 29); Start (isoDate 2024 4 3)].
Proof.
  split; [|split; [|split; [|split; [|split]]]]; reflexivity.
Qed.

(** ** Ends that close nothing *)

Lemma findTarget_none ev d n :
  (forall i, (i < n)%nat -> openStartAt ev d i = false) ->
  findTarget ev d n = None.
Proof.
  induction n as [|n IH]; intros H; simpl; trivial.
  assert (IH' : findTarget ev d n = None) by (apply IH; intros; apply H; lia).
  specialize (H n (Nat.lt_succ_diag_r n)). unfold openStartAt in H.
  destruct (ev !! n) as [e|]; trivial.
  destruct (isStart e && (date e <=? d)); trivial. simpl in H.
  destruct (ev !! S n) as [nx|]; [|discriminate].
  now rewrite H.
Qed.

Lemma findTarget_some ev d n i :
  findTarget ev d n = Some i -> (i < n)%nat /\ openStartAt ev d i = true.
Proof.
  induction n as [|n IH]; simpl; [discriminate|].
  intros H.
  assert (Hrec : findTarget ev d n = Some i ->
                 (i < S n)%nat /\ openStartAt ev d i = true).
  { intros H'. destruct (IH H'). split; trivial. lia. }
  unfold openStartAt.
  destruct (ev !! n) as [e|] eqn:En; [|now apply Hrec].
  destruct (isStart e && (date e <=? d)) eqn:Ee; [|now apply Hrec].
  destruct (ev !! S n) as [nx|] eqn:Enx.
  - destruct (isStart nx) eqn:Es; [|now apply Hrec].
    injection H as <-. rewrite En, Ee, Enx. split; [lia | exact Es].
  - injection H as <-. rewrite En, Ee, Enx. split; [lia | reflexivity].
Qed.

(** C8, as the code has it. If the log holds no End on [d] and no Start
    on or before [d] that is the last event or is directly followed by
    another Start, [logPeriodEnd d] returns the state it was given: no End
    is recorded and the log and the average cycle length are unchanged.
    The model is a total function, so no error is raised. *)
Theorem logPeriodEnd_no_open_start (d : Z) (st : State) :
  existsb (onDateOfType d end_) (events (cycle st)) = false ->
  (forall i, openStartAt (events (cycle st)) d i = false) ->
  logPeriodEnd d st = st /\
  events (cycle (logPeriodEnd d st)) = events (cycle st) /\
  avgLength (cycle (logPeriodEnd d st)) = avgLength (cycle st).
Proof.
  intros Hend Hopen.
  assert (E : logPeriodEnd d st = st).
  { unfold logPeriodEnd. rewrite Hend.
    rewrite findTarget_none; trivial. }
  now rewrite E.
Qed.

(** A closed period, and an End asked for after it. *)
Lemma logPeriodEnd_no_open_start_witness :
  let st := set_events [Start (isoDate 2024 1 1); End (isoDate 2024 1 4)]
                       getFactoryDefaults in
  logPeriodEnd (isoDate 2024 1 10) st = st.
Proof.
  intros st.
  apply (logPeriodEnd_no_open_start (isoDate 2024 1 10) st).
  - reflexivity.
  - intros [|[|[|i]]]; reflexivity.
Defined.

(** C8, as the specification words it, fails. After Starts on
    2024-01-01 and 2024-01-03 (the first is not auto-closed, its End would
    fall on 01-06) the log has no End on 2024-01-02 and no Start on or
    before that date whose next event is not a Start; yet [logPeriodEnd]
    on 2024-01-02 records an End. *)
Lemma logPeriodEnd_worded_fails :
  let st := run utc [OpStart (isoDate 2024 1 1); OpStart (isoDate 2024 1 3)]
                getFactoryDefaults in
  let d := isoDate 2024 1 2 in
  events (cycle st) = [Start (isoDate 2024 1 1); Start (isoDate 2024 1 3)] /\
  existsb (onDateOfType d end_) (events (cycle st)) = false /\
  (forall i, openStartAsWorded (events (cycle st)) d i = false) /\
  events (cycle (logPeriodEnd d st)) =
    [Start (isoDate 2024 1 1); End (isoDate 2024 1 2);
     Start (isoDate 2024 1 3)] /\
  logPeriodEnd d st <> st.
Proof.
  intros st d. repeat split; try reflexivity.
  - intros [|[|[|i]]]; reflexivity.
  - intros H. apply (f_equal (fun s => length (events (cycle s)))) in H.
    vm_compute in H. discriminate H.
Qed.

(** ** The phase resolver *)

Lemma find_app_skip {A} (f : A -> bool) (l1 l2 : list A) :
  Forall (fun x => f x = false) l1 ->
  List.find f (l1 ++ l2) = List.find f l2.
Proof.
  induction 1 as [|x r Hx _ IH]; simpl; trivial. now rewrite Hx.
Qed.

(** When the events after a Start all lie after the date, the phase math
    counts from that Start. *)
Lemma phaseMath_lastStart st d pre e post :
  events (cycle st) = pre ++ e :: post ->
  isStart e = true -> date e <= d ->
  Forall (fun x => d < date x) post ->
  phaseMath st d = phaseOfCycleDay (Z.rem (d - date e) (avgLen st) + 1).
Proof.
  intros Hev He Hle Hpost. unfold phaseMath.
  rewrite Hev, rev_app_distr. simpl rev. rewrite <- app_assoc.
  rewrite find_app_skip.
  - simpl. rewrite He. replace (date e <=? d) with true by lia. simpl.
    now replace (d - date e + 1 - 1) with (d - date e) by lia.
  - apply Forall_forall. intros x Hx.
    apply list_elem_of_In, in_rev in Hx.
    rewrite Forall_forall in Hpost.
    apply list_elem_of_In in Hx. specialize (Hpost x Hx).
    apply andb_false_iff. right. lia.
Qed.

Lemma lastEventLoop_some d l acc e :
  lastEventLoop d l acc = Some e ->
  (acc = Some e /\ forall x r, l = x :: r -> d < date x) \/
  exists pre post, l = pre ++ e :: post /\ date e <= d /\
                   forall x r, post = x :: r -> d < date x.
Proof.
  revert acc. induction l as [|y r IH]; intros acc; simpl.
  - intros ->. left. split; [trivial | discriminate].
  - destruct (date y <=? d) eqn:E.
    + intros H. right.
      destruct (IH _ H) as [[[= <-] Hhd] | [pre [post [-> [Hle Hhd]]]]].
      * exists [], r. repeat split; trivial. lia.
      * exists (y :: pre), post. repeat split; trivial.
    + intros ->. left. split; trivial.
      intros x r' [= <- <-]. lia.
Qed.

Lemma Sorted_app_r (l1 l2 : list CycleEvent) :
  Sorted dateLe (l1 ++ l2) -> Sorted dateLe l2.
Proof.
  induction l1 as [|x r IH]; simpl; trivial.
  intros H. apply IH. now inversion H.
Qed.

Lemma Sorted_all_after d (post : list CycleEvent) :
  Sorted dateLe post ->
  (forall x r, post = x :: r -> d < date x) ->
  Forall (fun y => d < date y) post.
Proof.
  intros Hs Hhd. destruct post as [|x r]; [constructor|].
  specialize (Hhd x r eq_refl).
  apply Sorted_StronglySorted in Hs; [|exact dateLe_trans].
  inversion Hs as [|? ? _ Hall]; subst. constructor; trivial.
  eapply Forall_impl; [exact Hall|]. unfold dateLe. simpl. intros; lia.
Qed.

Lemma phaseOfCycleDay_ranges k :
  (k <= 5 -> phaseOfCycleDay k = Menstrual) /\
  (6 <= k <= 13 -> phaseOfCycleDay k = Follicular) /\
  (14 <= k <= 17 -> phaseOfCycleDay k = Ovulation) /\
  (18 <= k -> phaseOfCycleDay k = Luteal).
Proof.
  unfold phaseOfCycleDay.
  destruct (k <=? 5) eqn:E5; destruct (k <=? 13) eqn:E13;
    destruct (k <=? 17) eqn:E17; repeat split; intros; trivial; lia.
Qed.

(** On a log that starts with a Start on [d0] and whose other events lie
    after the date [d], the resolver answers Menstrual up to seven days
    after [d0] and the phase of the cycle day from then on. *)
Lemma getPhaseForDate_single_start st d0 later d :
  events (cycle st) = Start d0 :: later ->
  Forall (fun e => d < date e) later ->
  d0 <= d ->
  getPhaseForDate st d =
    if d - d0 <=? 7 then Menstrual
    else phaseOfCycleDay (Z.rem (d - d0) (avgLen st) + 1).
Proof.
  intros Hev Hlater Hle.
  assert (Hloop : lastEventLoop d (events (cycle st)) None = Some (Start d0)).
  { rewrite Hev. simpl. replace (d0 <=? d) with true by lia.
    destruct Hlater as [|x r Hx _]; simpl; trivial.
    now replace (date x <=? d) with false by lia. }
  unfold getPhaseForDate. rewrite Hloop. simpl.
  destruct (d - d0 <=? 7); trivial.
  now apply (phaseMath_lastStart st d [] (Start d0) later).
Qed.

(** C2. For a log whose only event on or before the queried date is a
    Start on 2024-01-01, with average cycle length 28, the resolver
    returns Menstrual for 2024-01-01, Ovulation for 2024-01-15 and
    Menstrual for 2024-01-29; each answer is the phase of
    cycleDay = ((daysSinceStart - 1) mod 28) + 1, the start date being
    day 1, under the mapping 1-5 Menstrual, 6-13 Follicular, 14-17
    Ovulation, 18 and above Luteal. *)
Theorem getPhaseForDate_wrap (st : State) (later : list CycleEvent) (d : Z) :
  events (cycle st) = Start (isoDate 2024 1 1) :: later ->
  Forall (fun e => d < date e) later ->
  avgLength (cycle st) = 28 ->
  (d = isoDate 2024 1 1 ->
     getPhaseForDate st d = Menstrual /\
     cycleDay (d - isoDate 2024 1 1 + 1) 28 = 1) /\
  (d = isoDate 2024 1 15 ->
     getPhaseForDate st d = Ovulation /\
     cycleDay (d - isoDate 2024 1 1 + 1) 28 = 15) /\
  (d = isoDate 2024 1 29 ->
     getPhaseForDate st d = Menstrual /\
     cycleDay (d - isoDate 2024 1 1 + 1) 28 = 1) /\
  (d = isoDate 2024 1 1 \/ d = isoDate 2024 1 15 \/ d = isoDate 2024 1 29 ->
     getPhaseForDate st d =
       phaseOfCycleDay (cycleDay (d - isoDate 2024 1 1 + 1) 28)) /\
  (forall k,
     (1 <= k <= 5 -> phaseOfCycleDay k = Menstrual) /\
     (6 <= k <= 13 -> phaseOfCycleDay k = Follicular) /\
     (14 <= k <= 17 -> phaseOfCycleDay k = Ovulation) /\
     (18 <= k -> phaseOfCycleDay k = Luteal)).
Proof.
  intros Hev Hlater Havg.
  assert (Hlen : avgLen st = 28) by (unfold avgLen; now rewrite Havg).
  assert (H : isoDate 2024 1 1 <= d ->
              getPhaseForDate st d =
                if d - isoDate 2024 1 1 <=? 7 then Menstrual
                else phaseOfCycleDay (Z.rem (d - isoDate 2024 1 1) 28 + 1)).
  { intros Hle. rewrite <- Hlen.
    now apply (getPhaseForDate_single_start st _ later d). }
  assert (H1 : d = isoDate 2024 1 1 ->
               getPhaseForDate st d = Menstrual /\
               cycleDay (d - isoDate 2024 1 1 + 1) 28 = 1).
  { intros ->. rewrite H; [|lia]. split; reflexivity. }
  assert (H15 : d = isoDate 2024 1 15 ->
                getPhaseForDate st d = Ovulation /\
                cycleDay (d - isoDate 2024 1 1 + 1) 28 = 15).
  { intros ->. rewrite H; [|apply Z.leb_le; reflexivity]. split; reflexivity. }
  assert (H29 : d = isoDate 2024 1 29 ->
                getPhaseForDate st d = Menstrual /\
                cycleDay (d - isoDate 2024 1 1 + 1) 28 = 1).
  { intros ->. rewrite H; [|apply Z.leb_le; reflexivity]. split; reflexivity. }
  split; [exact H1|]. split; [exact H15|]. split; [exact H29|]. split.
  - intros [E | [E | E]].
    + destruct (H1 E) as [-> ?]. now subst d.
    + destruct (H15 E) as [-> ?]. now subst d.
    + destruct (H29 E) as [-> ?]. now subst d.
  - intros k. destruct (phaseOfCycleDay_ranges k) as [A [B [C D]]].
    repeat split; trivial. intros Hk. apply A. lia.
Qed.

(** The three dates of C2 on a log with a later period. *)
Lemma getPhaseForDate_wrap_witness :
  let st := set_avgLength 28
    (set_events [Start (isoDate 2024 1 1); End (isoDate 2024 2 2);
                 Start (isoDate 2024 3 1)] getFactoryDefaults) in
  getPhaseForDate st (isoDate 2024 1 1) = Menstrual /\
  getPhaseForDate st (isoDate 2024 1 15) = Ovulation /\
  getPhaseForDate st (isoDate 2024 1 29) = Menstrual.
Proof.
  intros st.
  assert (Hl : forall d, d <= isoDate 2024 1 29 ->
            Forall (fun e => d < date e)
                   [End (isoDate 2024 2 2); Start (isoDate 2024 3 1)]).
  { intros d Hd. change (isoDate 2024 1 29) with 19751 in Hd.
    repeat constructor; simpl.
    - change (isoDate 2024 2 2) with 19755. lia.
    - change (isoDate 2024 3 1) with 19783. lia. }
  assert (Hle : forall a b, (a <=? b) = true -> a <= b)
    by (intros a b; apply Z.leb_le).
  split; [|split].
  - exact (proj1 (proj1 (getPhaseForDate_wrap st _ (isoDate 2024 1 1)
             eq_refl (Hl _ (Hle (isoDate 2024 1 1) (isoDate 2024 1 29) eq_refl))
             eq_refl) eq_refl)).
  - exact (proj1 (proj1 (proj2 (getPhaseForDate_wrap st _ (isoDate 2024 1 15)
             eq_refl (Hl _ (Hle (isoDate 2024 1 15) (isoDate 2024 1 29) eq_refl))
             eq_refl)) eq_refl)).
  - exact (proj1 (proj1 (proj2 (proj2 (getPhaseForDate_wrap st _
             (isoDate 2024 1 29)
             eq_refl (Hl _ (Hle (isoDate 2024 1 29) (isoDate 2024 1 29) eq_refl))
             eq_refl))) eq_refl)).
Defined.

(** ** Expiry of an open period *)

(** C4, as the code has it. On a sorted log whose most recent event on
    or before [d] is a Start on [s], if [d] lies more than 7 days after
    [s] (cycle day 9 or later) the open period no longer makes [d]
    Menstrual: the answer is the phase of the cycle day counted from [s].
    In particular, 8 days after [s] (cycle day 9) the phase is Follicular
    when the average cycle length is at least 9.  Up to 7 days after [s],
    cycle day 8 included, the answer is Menstrual. *)
Theorem getPhaseForDate_open_period_expiry (st : State) (d s : Z) :
  Sorted dateLe (events (cycle st)) ->
  lastEventLoop d (events (cycle st)) None = Some (Start s) ->
  (7 < d - s ->
   getPhaseForDate st d = phaseOfCycleDay (Z.rem (d - s) (avgLen st) + 1) /\
   (d = s + 8 -> 9 <= avgLen st -> getPhaseForDate st d = Follicular)) /\
  (d - s <= 7 -> getPhaseForDate st d = Menstrual).
Proof.
  intros Hs Hloop. split.
  - intros Hlt.
    assert (E : getPhaseForDate st d =
                phaseOfCycleDay (Z.rem (d - s) (avgLen st) + 1)).
    { unfold getPhaseForDate. rewrite Hloop. simpl.
      replace (d - s <=? 7) with false by lia.
      destruct (lastEventLoop_some _ _ _ _ Hloop)
        as [[[=] _] | [pre [post [Hev [Hle Hhd]]]]].
      apply (phaseMath_lastStart st d pre (Start s) post); trivial.
      apply Sorted_all_after; trivial.
      rewrite Hev in Hs. apply Sorted_app_r in Hs. now inversion Hs. }
    split; trivial.
    intros -> Hlen. rewrite E.
    replace (s + 8 - s) with 8 by lia.
    rewrite Z.rem_small by lia. reflexivity.
  - intros Hle. unfold getPhaseForDate. rewrite Hloop. simpl.
    now replace (d - s <=? 7) with true by lia.
Qed.

(** A period opened on 2024-01-01 and never closed, seen on 2024-01-09
    and on 2024-01-08. *)
Lemma getPhaseForDate_open_period_expiry_witness :
  getPhaseForDate (set_events [Start (isoDate 2024 1 1)] getFactoryDefaults)
                  (isoDate 2024 1 9) = Follicular /\
  getPhaseForDate (set_events [Start (isoDate 2024 1 1)] getFactoryDefaults)
                  (isoDate 2024 1 8) = Menstrual.
Proof.
  assert (Hsorted : Sorted dateLe
            (events (cycle (set_events [Start (isoDate 2024 1 1)]
                                       getFactoryDefaults))))
    by (simpl; repeat constructor).
  split.
  - refine (proj2 (proj1 (getPhaseForDate_open_period_expiry
             (set_events [Start (isoDate 2024 1 1)] getFactoryDefaults)
             (isoDate 2024 1 9) (isoDate 2024 1 1) Hsorted eq_refl) eq_refl)
             eq_refl _).
    apply Z.leb_le. reflexivity.
  - refine (proj2 (getPhaseForDate_open_period_expiry
             (set_events [Start (isoDate 2024 1 1)] getFactoryDefaults)
             (isoDate 2024 1 8) (isoDate 2024 1 1) Hsorted eq_refl) _).
    apply Z.leb_le. reflexivity.
Defined.

(** C4, as the specification words it, fails: 7 days after an unclosed
    Start (cycle day 8) the resolver still answers Menstrual, through the
    test [diff <= 7], where the phase math alone gives Follicular. *)
Lemma getPhaseForDate_day8_menstrual :
  let st := set_events [Start (isoDate 2024 1 1)] getFactoryDefaults in
  let d := isoDate 2024 1 8 in
  lastEventLoop d (events (cycle st)) None = Some (Start (isoDate 2024 1 1)) /\
  d = isoDate 2024 1 1 + 7 /\
  getPhaseForDate st d = Menstrual /\
  getPhaseForDate st d <> Follicular /\
  phaseMath st d = Follicular.
Proof.
  intros st d. repeat split; discriminate.
Qed.

(** ** The metabolic estimator *)






(** An activity level that names an inherited property of the table
    object makes the estimate NaN, whatever the weight. *)
Lemma calculateKatchMcArdle_inherited_key st today :
  In (activityLevel (profile st)) inheritedKeys ->
  isNaN (calculateKatchMcArdle st today) = true.
Proof.
  intros Hin.
  assert (Ha : activity st = S754_nan).
  { unfold activity, inheritedKeys in *. simpl in Hin.
    repeat (destruct Hin as [<- | Hin]; [reflexivity|]). destruct Hin. }
  unfold calculateKatchMcArdle. rewrite Ha.
  assert (Hm : mul64 (bmr st today) S754_nan = S754_nan)
    by (destruct (bmr st today); reflexivity).
  rewrite Hm. reflexivity.
Qed.

(** ** The daily aggregator *)

Lemma fold_addBurn l acc :
  fold_left addBurn l acc = fold_left Qplus (map burnOf l) acc.
Proof.
  revert acc. induction l as [|w r IH]; intros acc; simpl.
  - reflexivity.
  - apply IH.
Qed.

Lemma fold_addMacros l acc :
  let r := fold_left addMacros l acc in
  m_cals r = fold_left Qplus (map (fun i => orZero (Food.cals i)) l) (m_cals acc) /\
  m_p r = fold_left Qplus (map (fun i => orZero (Food.p i)) l) (m_p acc) /\
  m_c r = fold_left Qplus (map (fun i => orZero (Food.c i)) l) (m_c acc) /\
  m_f r = fold_left Qplus (map (fun i => orZero (Food.f i)) l) (m_f acc) /\
  m_fiber r =
    fold_left Qplus (map (fun i => orZero (Food.fiber i)) l) (m_fiber acc).
Proof.
  revert acc. induction l as [|i r IH]; intros acc; simpl.
  - repeat split.
  - apply (IH (addMacros acc i)).
Qed.

(** The entry stored by [logWorkout] has the [burn] of the object passed. *)
Lemma burnOf_logged (w : Workout) (now : Z) :
  burnOf (w ∪ {[ "id" := Some (inject_Z now) ]}) = burnOf w.
Proof.
  unfold burnOf, prop. rewrite lookup_union.
  rewrite (lookup_singleton_ne "id" "burn") by discriminate.
  now destruct (w !! "burn").
Qed.

Lemma workouts_logWorkout now d w st :
  workouts (logs (logWorkout now d w st)) !! d =
    Some (default [] (workouts (logs st) !! d)
            ++ [w ∪ {[ "id" := Some (inject_Z now) ]}]).
Proof. unfold logWorkout. simpl. apply lookup_insert_eq. Qed.

Lemma nutrition_logWorkout now d w st :
  nutrition (logs (logWorkout now d w st)) = nutrition (logs st).
Proof. reflexivity. Qed.

(** The day's list of workouts after a series of [logWorkout] calls: the
    earlier list followed by the entries of the calls, in call order. *)
Lemma workouts_logWorkouts d ws st :
  default [] (workouts (logs (logWorkouts d ws st)) !! d) =
    default [] (workouts (logs st) !! d)
      ++ map (fun nw => snd nw ∪ {[ "id" := Some (inject_Z (fst nw)) ]}) ws.
Proof.
  revert st. induction ws as [|[now w] r IH]; intros st.
  - simpl. now rewrite app_nil_r.
  - change (logWorkouts d ((now, w) :: r) st)
      with (logWorkouts d r (logWorkout now d w st)).
    rewrite IH, workouts_logWorkout. cbn [default from_option]. unfold id.
    now rewrite <- app_assoc.
Qed.

(** In exact arithmetic the order of the sum does not matter. *)
Lemma sumLeft_sumQ xs : (sumLeft xs == sumQ xs)%Q.
Proof.
  unfold sumLeft.
  assert (H : forall acc, (fold_left Qplus xs acc == acc + sumQ xs)%Q).
  { induction xs as [|x r IH]; intros acc; simpl.
    - ring.
    - rewrite IH. ring. }
  rewrite H. ring.
Qed.

(** C9. For every date the daily-totals query returns the componentwise
    sums of the calories, protein, carbs, fat and fiber ([cals], [p],
    [c], [f], [fiber]) of the date's nutrition entries and a burn total
    equal to the sum of the calories burned ([burn]) of the date's
    workout entries, each sum taken from 0 in the order of the entries and
    a missing or NaN value counting as 0; after [logWorkout] calls on a
    date without workouts the burn total is the sum of the calories
    burned of the objects passed; and for a date with no entries all
    totals are zero. *)
Theorem getDailyStats_totals :
  (forall st d,
     let nLogs := default [] (nutrition (logs st) !! d) in
     let wLogs := default [] (workouts (logs st) !! d) in
     let r := getDailyStats st d in
     m_cals (macros r) = sumLeft (map (fun i => orZero (Food.cals i)) nLogs) /\
     m_p (macros r) = sumLeft (map (fun i => orZero (Food.p i)) nLogs) /\
     m_c (macros r) = sumLeft (map (fun i => orZero (Food.c i)) nLogs) /\
     m_f (macros r) = sumLeft (map (fun i => orZero (Food.f i)) nLogs) /\
     m_fiber (macros r) =
       sumLeft (map (fun i => orZero (Food.fiber i)) nLogs) /\
     burn r = sumLeft (map (fun w => orZero (prop w "burn")) wLogs)) /\
  (forall st d ws,
     workouts (logs st) !! d = None ->
     burn (getDailyStats (logWorkouts d ws st) d) =
       sumLeft (map (fun nw => orZero (prop (snd nw) "burn")) ws)) /\
  (forall st d,
     nutrition (logs st) !! d = None ->
     workouts (logs st) !! d = None ->
     getDailyStats st d = mkStats (mkMacros 0 0 0 0 0) 0%Q).
Proof.
  split; [|split].
  - intros st d nLogs wLogs r.
    destruct (fold_addMacros nLogs (mkMacros 0 0 0 0 0))
      as [H1 [H2 [H3 [H4 H5]]]].
    subst r. unfold getDailyStats. cbn [macros burn].
    fold nLogs. fold wLogs.
    split; [exact H1|]. split; [exact H2|]. split; [exact H3|].
    split; [exact H4|]. split; [exact H5|].
    apply fold_addBurn.
  - intros st d ws Hnone. unfold getDailyStats. cbn [burn].
    rewrite workouts_logWorkouts, Hnone. cbn [default from_option app].
    rewrite fold_addBurn, List.map_map. unfold sumLeft. f_equal.
    apply map_ext. intros [now w]. apply burnOf_logged.
  - intros st d Hn Hw. unfold getDailyStats. now rewrite Hn, Hw.
Qed.

(** Two workouts logged on 2024-01-05, with burns 300 and 120.5. *)
Lemma getDailyStats_totals_witness :
  (burn (getDailyStats
           (logWorkouts (isoDate 2024 1 5)
              [(1%Z, {[ "burn" := Some 300%Q ]});
               (2%Z, {[ "burn" := Some 120.5%Q; "duration" := Some 30%Q ]})]
              getFactoryDefaults)
           (isoDate 2024 1 5)) == 420.5)%Q /\
  getDailyStats getFactoryDefaults (isoDate 2024 1 5) =
    mkStats (mkMacros 0 0 0 0 0) 0%Q.
Proof.
  split.
  - rewrite (proj1 (proj2 getDailyStats_totals) getFactoryDefaults
               (isoDate 2024 1 5) _ eq_refl).
    reflexivity.
  - apply (proj2 (proj2 getDailyStats_totals) getFactoryDefaults
             (isoDate 2024 1 5)); reflexivity.
Defined.

(** * Further properties of the engine *)

(** ** The event log under [logPeriodStart] and [logPeriodEnd] *)

Lemma isStart_Start e : isStart e = true -> e = Start (date e).
Proof. destruct e as [d []]; [reflexivity | discriminate]. Qed.

Lemma in_sortCycleEvents_push x e st :
  In x (events (cycle (sortCycleEvents (pushEvent e st)))) <->
  In x (events (cycle st)) \/ x = e.
Proof.
  rewrite events_sortCycleEvents, events_pushEvent. split.
  - intros H. apply (Permutation_in _ (sortByDate_perm _)) in H.
    apply in_app_or in H as [H | [H | []]]; auto.
  - intros H. apply (Permutation_in _ (Permutation_sym (sortByDate_perm _))).
    apply in_or_app. destruct H as [H | ->]; [now left | right; now left].
Qed.

(** Membership in the log after [logPeriodStart]. *)
Lemma in_logPeriodStart (tz : Zone) x d st :
  In x (events (cycle (logPeriodStart tz d st))) ->
  In x (events (cycle st)) \/ x = Start d \/
  exists s, x = End (syntheticEnd tz s) /\ In (Start s) (events (cycle st)) /\
            syntheticEnd tz s < d.
Proof.
  unfold logPeriodStart.
  destruct (existsb (onDateOfType d start) (events (cycle st))); [now left|].
  intros H. apply in_sortCycleEvents_push in H as [H | ->]; [|auto].
  destruct (events_closeOpenCycles tz d st) as [E | [s [Hlast [Hlt E]]]];
    rewrite E in H; [now left|].
  apply in_app_or in H as [H | [<- | []]]; [now left|].
  right; right. exists s. repeat split; trivial.
  apply last_Some in Hlast as [l' ->]. apply in_or_app. right. now left.
Qed.

Lemma logPeriodStart_keeps (tz : Zone) x d st :
  In x (events (cycle st)) -> In x (events (cycle (logPeriodStart tz d st))).
Proof.
  intros H. unfold logPeriodStart.
  destruct (existsb (onDateOfType d start) (events (cycle st))); trivial.
  apply in_sortCycleEvents_push. left.
  destruct (events_closeOpenCycles tz d st) as [E | [s [_ [_ E]]]]; rewrite E;
    trivial.
  apply in_or_app. now left.
Qed.

(** Membership in the log after [logPeriodEnd]. *)
Lemma in_logPeriodEnd x d st :
  In x (events (cycle (logPeriodEnd d st))) ->
  In x (events (cycle st)) \/
  (x = End d /\ exists s, In (Start s) (events (cycle st)) /\ s <= d).
Proof.
  unfold logPeriodEnd.
  destruct (existsb (onDateOfType d end_) (events (cycle st))); [now left|].
  destruct (findTarget _ _ _) as [i|] eqn:F; [|now left].
  intros H. apply in_sortCycleEvents_push in H as [H | ->]; [now left|].
  right. split; trivial.
  apply findTarget_some in F as [_ F]. unfold openStartAt in F.
  destruct (events (cycle st) !! i) as [e|] eqn:Ei; [|discriminate].
  apply andb_true_iff in F as [F _]. apply andb_true_iff in F as [Fs Fd].
  exists (date e). split; [|lia].
  rewrite <- (isStart_Start e Fs).
  apply list_elem_of_In. eapply list_elem_of_lookup_2. exact Ei.
Qed.

Lemma logPeriodEnd_keeps x d st :
  In x (events (cycle st)) -> In x (events (cycle (logPeriodEnd d st))).
Proof.
  intros H. unfold logPeriodEnd.
  destruct (existsb (onDateOfType d end_) (events (cycle st))); trivial.
  destruct (findTarget _ _ _); trivial.
  apply in_sortCycleEvents_push. now left.
Qed.

Lemma logPeriodEnd_cases d st :
  logPeriodEnd d st = st \/
  logPeriodEnd d st = sortCycleEvents (pushEvent (End d) st).
Proof.
  unfold logPeriodEnd.
  destruct (existsb (onDateOfType d end_) (events (cycle st))); [now left|].
  destruct (findTarget _ _ _); [now right | now left].
Qed.

(** X1. [logPeriodEnd d] called twice in succession leaves the same
    state as called once, whether the first call recorded the End, found
    one already there, or found no Start to close. *)
Theorem logPeriodEnd_idempotent (d : Z) (st : State) :
  logPeriodEnd d (logPeriodEnd d st) = logPeriodEnd d st.
Proof.
  destruct (logPeriodEnd_cases d st) as [H | H].
  - now rewrite !H.
  - rewrite H. unfold logPeriodEnd.
    replace (existsb (onDateOfType d end_)
               (events (cycle (sortCycleEvents (pushEvent (End d) st)))))
      with true; trivial.
    symmetry. apply existsb_onDateOfType.
    apply in_sortCycleEvents_push. now right.
Qed.

Lemma length_logPeriodStart (tz : Zone) d st :
  (length (events (cycle st)) <= length (events (cycle (logPeriodStart tz d st)))
   <= length (events (cycle st)) + 2)%nat.
Proof.
  unfold logPeriodStart.
  destruct (existsb (onDateOfType d start) (events (cycle st))); [lia|].
  rewrite events_sortCycleEvents, (Permutation_length (sortByDate_perm _)).
  rewrite events_pushEvent, length_app. simpl.
  destruct (events_closeOpenCycles tz d st) as [E | [s [_ [_ E]]]]; rewrite E.
  - lia.
  - rewrite length_app. simpl. lia.
Qed.

Lemma length_logPeriodEnd d st :
  (length (events (cycle st)) <= length (events (cycle (logPeriodEnd d st)))
   <= length (events (cycle st)) + 1)%nat.
Proof.
  unfold logPeriodEnd.
  destruct (existsb (onDateOfType d end_) (events (cycle st))); [lia|].
  destruct (findTarget _ _ _); [|lia].
  rewrite events_sortCycleEvents, (Permutation_length (sortByDate_perm _)).
  rewrite events_pushEvent, length_app. simpl. lia.
Qed.

(** X2. The log is append-only: through any sequence of [logPeriodStart]
    and [logPeriodEnd] calls every event already logged stays in the log,
    and each call adds at most two events. *)
Theorem run_log_append_only (tz : Zone) (ops : list Op) (st : State) :
  (forall e, In e (events (cycle st)) -> In e (events (cycle (run tz ops st)))) /\
  (length (events (cycle st)) <= length (events (cycle (run tz ops st)))
   <= length (events (cycle st)) + 2 * length ops)%nat.
Proof.
  induction ops as [|o ops [IHin IHlen]] using rev_ind.
  - split; [trivial | simpl; lia].
  - rewrite run_snoc, length_app. simpl length. split.
    + intros e He. specialize (IHin e He).
      destruct o as [d|d]; simpl.
      * now apply logPeriodStart_keeps.
      * now apply logPeriodEnd_keeps.
    + destruct o as [d|d]; simpl.
      * pose proof (length_logPeriodStart tz d (run tz ops st)). lia.
      * pose proof (length_logPeriodEnd d (run tz ops st)). lia.
Qed.

(** X3. No orphan End: after any sequence of calls from an empty log,
    every End in the log has a Start dated on or before it in the log. *)
Theorem run_no_orphan_end (tz : Zone) (st0 : State) (ops : list Op) (d : Z) :
  events (cycle st0) = [] ->
  In (End d) (events (cycle (run tz ops st0))) ->
  exists s, In (Start s) (events (cycle (run tz ops st0))) /\ s <= d.
Proof.
  intros Hempty. revert d.
  induction ops as [|o ops IH] using rev_ind; intros d.
  - unfold run. simpl. rewrite Hempty. intros [].
  - rewrite run_snoc. destruct o as [x|x]; simpl; intros H.
    + apply in_logPeriodStart in H as [H | [H | [s [H [Hs Hlt]]]]].
      * destruct (IH d H) as [s [Hs Hle]]. exists s. split; trivial.
        now apply logPeriodStart_keeps.
      * discriminate H.
      * injection H as ->. exists s.
        pose proof (syntheticEnd_range tz s). split; [|lia].
        now apply logPeriodStart_keeps.
    + apply in_logPeriodEnd in H as [H | [H [s [Hs Hle]]]].
      * destruct (IH d H) as [s [Hs Hle]]. exists s. split; trivial.
        now apply logPeriodEnd_keeps.
      * injection H as ->. exists s. split; trivial.
        now apply logPeriodEnd_keeps.
Qed.

(** A period logged, closed, and a second one begun. *)
Lemma run_no_orphan_end_witness :
  exists s,
    In (Start s)
       (events (cycle (run utc [OpStart (isoDate 2024 1 1); OpEnd (isoDate 2024 1 4);
                            OpStart (isoDate 2024 2 1)] getFactoryDefaults))) /\
    s <= isoDate 2024 1 4.
Proof.
  apply (run_no_orphan_end utc getFactoryDefaults
           [OpStart (isoDate 2024 1 1); OpEnd (isoDate 2024 1 4);
            OpStart (isoDate 2024 2 1)] (isoDate 2024 1 4)).
  - reflexivity.
  - right. left. reflexivity.
Defined.

(** ** The learned average cycle length *)

Lemma accepted_range xs : Forall (fun x => 16 <= x <= 49) (accepted xs).
Proof.
  induction xs as [|x r IH]; [constructor|].
  rewrite accepted_cons. unfold acceptedDelta at 1.
  destruct (15 <? x) eqn:E1; destruct (x <? 50) eqn:E2; simpl; trivial.
  constructor; trivial. lia.
Qed.

Lemma sumZ_range xs :
  Forall (fun x => 16 <= x <= 49) xs ->
  16 * Z.of_nat (length xs) <= sumZ xs <= 49 * Z.of_nat (length xs).
Proof.
  induction 1 as [|x r Hx _ IH]; simpl length; simpl sumZ; lia.
Qed.

(** The rounded mean of values between 16 and 49 lies between 16 and 49. *)
Lemma jsRound_range t c :
  0 < c -> 16 * c <= t <= 49 * c -> 16 <= jsRound t c <= 49.
Proof.
  intros Hc Ht. unfold jsRound. split.
  - apply Z.div_le_lower_bound; lia.
  - apply Z.lt_succ_r. apply Z.div_lt_upper_bound; lia.
Qed.

(** [recalculateCycleStats] in terms of the accepted deltas. *)
Lemma recalculateCycleStats_eq st :
  recalculateCycleStats st =
    if Z.of_nat (length (events (cycle st))) <? 3 then st
    else
      match accepted (cycleDeltas (events (cycle st))) with
      | [] => st
      | acc => set_avgLength (jsRound (sumZ acc) (Z.of_nat (length acc))) st
      end.
Proof.
  unfold recalculateCycleStats.
  destruct (Z.of_nat (length (events (cycle st))) <? 3); trivial.
  rewrite statsLoop_spec.
  destruct (accepted (cycleDeltas (events (cycle st)))) as [|x r];
    reflexivity.
Qed.

Lemma jsRound_accepted_range xs :
  accepted xs <> [] ->
  16 <= jsRound (sumZ (accepted xs)) (Z.of_nat (length (accepted xs))) <= 49.
Proof.
  intros Hne. apply jsRound_range.
  - destruct (accepted xs); [congruence | simpl length; lia].
  - apply sumZ_range, accepted_range.
Qed.

(** X4. When [recalculateCycleStats] has at least 3 events and at least
    one accepted delta, the average it stores is the rounded mean of the
    accepted deltas and lies between 16 and 49 days. *)
Theorem recalculateCycleStats_bounds (st : State) :
  (3 <= length (events (cycle st)))%nat ->
  accepted (cycleDeltas (events (cycle st))) <> [] ->
  avgLength (cycle (recalculateCycleStats st)) =
    jsRound (sumZ (accepted (cycleDeltas (events (cycle st)))))
            (Z.of_nat (length (accepted (cycleDeltas (events (cycle st)))))) /\
  16 <= avgLength (cycle (recalculateCycleStats st)) <= 49.
Proof.
  intros Hlen Hacc.
  assert (E : avgLength (cycle (recalculateCycleStats st)) =
    jsRound (sumZ (accepted (cycleDeltas (events (cycle st)))))
            (Z.of_nat (length (accepted (cycleDeltas (events (cycle st))))))).
  { rewrite recalculateCycleStats_eq.
    replace (Z.of_nat (length (events (cycle st))) <? 3) with false by lia.
    destruct (accepted (cycleDeltas (events (cycle st)))); [congruence|].
    reflexivity. }
  split; trivial. rewrite E. now apply jsRound_accepted_range.
Qed.

(** Three Starts 30 and 27 days apart: the mean 28.5 is stored as 29. *)
Lemma recalculateCycleStats_bounds_witness :
  let st := set_events
    [Start (isoDate 2024 1 1); Start (isoDate 2024 1 31);
     Start (isoDate 2024 2 27)] getFactoryDefaults in
  avgLength (cycle (recalculateCycleStats st)) = jsRound 57 2 /\
  16 <= avgLength (cycle (recalculateCycleStats st)) <= 49.
Proof.
  intros st.
  apply (recalculateCycleStats_bounds st).
  - simpl. lia.
  - discriminate.
Defined.

Lemma avgLength_recalculateCycleStats st :
  avgLength (cycle (recalculateCycleStats st)) = avgLength (cycle st) \/
  16 <= avgLength (cycle (recalculateCycleStats st)) <= 49.
Proof.
  rewrite recalculateCycleStats_eq.
  destruct (Z.of_nat (length (events (cycle st))) <? 3); [now left|].
  pose proof (jsRound_accepted_range (cycleDeltas (events (cycle st)))) as Hr.
  destruct (accepted (cycleDeltas (events (cycle st)))) as [|x r];
    [now left|].
  right. apply Hr. discriminate.
Qed.

Lemma avgLength_closeOpenCycles (tz : Zone) d st :
  avgLength (cycle (closeOpenCycles tz d st)) = avgLength (cycle st).
Proof.
  unfold closeOpenCycles.
  destruct (last (events (cycle st))) as [e|]; trivial.
  destruct (isStart e && (date e <? d)); trivial.
  now destruct (syntheticEnd tz (date e) <? d).
Qed.

Lemma avgLength_applyOp (tz : Zone) st o :
  avgLength (cycle (applyOp tz st o)) = avgLength (cycle st) \/
  16 <= avgLength (cycle (applyOp tz st o)) <= 49.
Proof.
  destruct o as [d|d]; simpl.
  - unfold logPeriodStart.
    destruct (existsb (onDateOfType d start) (events (cycle st))); [now left|].
    unfold sortCycleEvents.
    destruct (avgLength_recalculateCycleStats
                (set_events
                   (sortByDate
                      (events (cycle (pushEvent (Start d) (closeOpenCycles tz d st)))))
                   (pushEvent (Start d) (closeOpenCycles tz d st)))) as [E | E];
      [|now right].
    left. rewrite E. simpl. apply avgLength_closeOpenCycles.
  - destruct (logPeriodEnd_cases d st) as [E | E]; rewrite E; [now left|].
    unfold sortCycleEvents.
    destruct (avgLength_recalculateCycleStats
                (set_events (sortByDate (events (cycle (pushEvent (End d) st))))
                            (pushEvent (End d) st))) as [E' | E'];
      [|now right].
    left. now rewrite E'.
Qed.

(** X5. Starting from a state whose average cycle length lies between
    16 and 49 days (the factory value is 29), it stays in that range
    through any sequence of [logPeriodStart] and [logPeriodEnd] calls; so
    the resolver never falls back on 29 and never divides by zero. *)
Theorem run_avgLength_bounds (tz : Zone) (st0 : State) (ops : list Op) :
  16 <= avgLength (cycle st0) <= 49 ->
  16 <= avgLength (cycle (run tz ops st0)) <= 49 /\
  avgLen (run tz ops st0) = avgLength (cycle (run tz ops st0)).
Proof.
  intros H0.
  assert (H : 16 <= avgLength (cycle (run tz ops st0)) <= 49).
  { induction ops as [|o ops IH] using rev_ind; trivial.
    rewrite run_snoc.
    destruct (avgLength_applyOp tz (run tz ops st0) o) as [E | E]; trivial.
    now rewrite E. }
  split; trivial. unfold avgLen.
  replace (avgLength (cycle (run tz ops st0)) =? 0) with false by lia.
  reflexivity.
Qed.

(** Three periods 30 and 27 days apart, logged from the factory state. *)
Lemma run_avgLength_bounds_witness :
  16 <= avgLength (cycle (run utc [OpStart (isoDate 2024 1 1);
                               OpStart (isoDate 2024 1 31);
                               OpStart (isoDate 2024 2 27)]
                              getFactoryDefaults)) <= 49.
Proof.
  apply (run_avgLength_bounds utc getFactoryDefaults
           [OpStart (isoDate 2024 1 1); OpStart (isoDate 2024 1 31);
            OpStart (isoDate 2024 2 27)]).
  simpl. lia.
Defined.

(** X6. [recalculateCycleStats] is idempotent: recomputing again, as
    [init] does on every boot, changes nothing more. *)
Theorem recalculateCycleStats_idempotent (st : State) :
  recalculateCycleStats (recalculateCycleStats st) = recalculateCycleStats st.
Proof.
  rewrite (recalculateCycleStats_eq (recalculateCycleStats st)).
  rewrite events_recalculateCycleStats.
  rewrite (recalculateCycleStats_eq st).
  destruct (Z.of_nat (length (events (cycle st))) <? 3); trivial.
  destruct (accepted (cycleDeltas (events (cycle st)))) as [|x r]; trivial.
Qed.

Lemma frame_recalculateCycleStats st :
  profile (recalculateCycleStats st) = profile st /\
  logs (recalculateCycleStats st) = logs st /\
  avgDuration (cycle (recalculateCycleStats st)) = avgDuration (cycle st).
Proof.
  rewrite recalculateCycleStats_eq.
  destruct (Z.of_nat (length (events (cycle st))) <? 3); [now repeat split|].
  now destruct (accepted (cycleDeltas (events (cycle st)))).
Qed.

Lemma frame_closeOpenCycles (tz : Zone) d st :
  profile (closeOpenCycles tz d st) = profile st /\
  logs (closeOpenCycles tz d st) = logs st /\
  avgDuration (cycle (closeOpenCycles tz d st)) = avgDuration (cycle st).
Proof.
  unfold closeOpenCycles.
  destruct (last (events (cycle st))) as [e|]; [|now repeat split].
  destruct (isStart e && (date e <? d)); [|now repeat split].
  now destruct (syntheticEnd tz (date e) <? d).
Qed.

Lemma frame_applyOp (tz : Zone) st o :
  profile (applyOp tz st o) = profile st /\
  logs (applyOp tz st o) = logs st /\
  avgDuration (cycle (applyOp tz st o)) = avgDuration (cycle st).
Proof.
  destruct o as [d|d]; simpl.
  - unfold logPeriodStart.
    destruct (existsb (onDateOfType d start) (events (cycle st)));
      [now repeat split|].
    unfold sortCycleEvents.
    destruct (frame_recalculateCycleStats
                (set_events
                   (sortByDate
                      (events (cycle (pushEvent (Start d) (closeOpenCycles tz d st)))))
                   (pushEvent (Start d) (closeOpenCycles tz d st))))
      as [-> [-> ->]].
    simpl. apply frame_closeOpenCycles.
  - destruct (logPeriodEnd_cases d st) as [E | E]; rewrite E;
      [now repeat split|].
    unfold sortCycleEvents.
    destruct (frame_recalculateCycleStats
                (set_events (sortByDate (events (cycle (pushEvent (End d) st))))
                            (pushEvent (End d) st)))
      as [-> [-> ->]].
    now repeat split.
Qed.

(** X7. Logging periods touches the cycle data only: through any
    sequence of [logPeriodStart] and [logPeriodEnd] calls the profile, the
    daily logs (nutrition, workouts, weights) and [avgDuration] are
    unchanged. *)
Theorem run_frame (tz : Zone) (ops : list Op) (st : State) :
  profile (run tz ops st) = profile st /\
  logs (run tz ops st) = logs st /\
  avgDuration (cycle (run tz ops st)) = avgDuration (cycle st).
Proof.
  induction ops as [|o ops [IH1 [IH2 IH3]]] using rev_ind.
  - now repeat split.
  - rewrite run_snoc.
    destruct (frame_applyOp tz (run tz ops st) o) as [-> [-> ->]].
    now repeat split.
Qed.

(** ** More on the phase resolver *)

Lemma find_split {A} (f : A -> bool) (l : list A) x :
  List.find f l = Some x ->
  exists l1 l2, l = l1 ++ x :: l2 /\ f x = true /\
                Forall (fun y => f y = false) l1.
Proof.
  induction l as [|y r IH]; simpl; [discriminate|].
  destruct (f y) eqn:E.
  - intros [= ->]. exists [], r. repeat split; trivial.
  - intros H. destruct (IH H) as [l1 [l2 [-> [Hx Hl1]]]].
    exists (y :: l1), l2. repeat split; trivial. now constructor.
Qed.

(** The last element of [l] that satisfies [f]. *)
Lemma find_rev_split {A} (f : A -> bool) (l : list A) x :
  List.find f (rev l) = Some x ->
  exists l1 l2, l = l1 ++ x :: l2 /\ f x = true /\
                Forall (fun y => f y = false) l2.
Proof.
  intros H. destruct (find_split _ _ _ H) as [l1 [l2 [E [Hx Hl1]]]].
  exists (rev l2), (rev l1). repeat split; trivial.
  - rewrite <- (rev_involutive l), E, rev_app_distr. simpl.
    now rewrite <- app_assoc.
  - apply Forall_forall. intros y Hy. rewrite Forall_forall in Hl1.
    apply Hl1. apply list_elem_of_In. apply list_elem_of_In in Hy.
    now apply in_rev.
Qed.

Lemma lastEventLoop_in d l acc e :
  lastEventLoop d l acc = Some e ->
  acc = Some e \/ (In e l /\ date e <= d).
Proof.
  intros H.
  destruct (lastEventLoop_some _ _ _ _ H) as [[E _] | [pre [post [-> [Hle _]]]]].
  - now left.
  - right. split; trivial. apply in_or_app. right. now left.
Qed.

(** In a sorted log an event that comes earlier has the smaller date. *)
Lemma Sorted_app_le (l1 l2 : list CycleEvent) a b :
  Sorted dateLe (l1 ++ l2) -> In a l1 -> In b l2 -> date a <= date b.
Proof.
  intros Hs Ha Hb.
  apply Sorted_StronglySorted in Hs; [|exact dateLe_trans].
  induction l1 as [|x r IH]; [destruct Ha|].
  simpl in Hs. inversion Hs as [|? ? Hr Hall]; subst.
  destruct Ha as [-> | Ha]; [|now apply IH].
  rewrite Forall_forall in Hall. apply Hall.
  apply list_elem_of_In, in_or_app. now right.
Qed.

Lemma rem_le_nonneg a b : 0 <= a -> 0 <= Z.rem a b <= a.
Proof.
  intros Ha. destruct (Z.eq_dec b 0) as [-> | Hb].
  - rewrite (Z.rem_0_r_ext a 0 eq_refl). lia.
  - split; [now apply Z.rem_nonneg|].
    destruct (Z.lt_ge_cases 0 b).
    + apply Z.rem_le; lia.
    + rewrite <- Z.rem_opp_r by trivial. apply Z.rem_le; lia.
Qed.

(** X8. With no Start on or before the date (in particular with an empty
    log) the resolver answers Follicular. *)
Theorem getPhaseForDate_no_start (st : State) (d : Z) :
  (forall e, In e (events (cycle st)) -> isStart e = true -> d < date e) ->
  getPhaseForDate st d = Follicular.
Proof.
  intros Hno.
  assert (Hmath : phaseMath st d = Follicular).
  { unfold phaseMath.
    destruct (List.find _ (rev (events (cycle st)))) as [ls|] eqn:F; trivial.
    apply find_some in F as [Hin Hp].
    apply andb_true_iff in Hp as [Hs Hd].
    apply in_rev in Hin. specialize (Hno ls Hin Hs). lia. }
  unfold getPhaseForDate.
  destruct (lastEventLoop d (events (cycle st)) None) as [e|] eqn:L; trivial.
  destruct (lastEventLoop_in _ _ _ _ L) as [[=] | [Hin Hle]].
  destruct (isStart e) eqn:Hs; trivial.
  specialize (Hno e Hin Hs). lia.
Qed.

(** A log whose only period starts after the day asked for. *)
Lemma getPhaseForDate_no_start_witness :
  getPhaseForDate
    (set_events [Start (isoDate 2024 2 1); End (isoDate 2024 2 5)]
                getFactoryDefaults)
    (isoDate 2024 1 15) = Follicular.
Proof.
  apply getPhaseForDate_no_start.
  intros e [<- | [<- | []]] Hs.
  - reflexivity.
  - discriminate Hs.
Defined.

(** The phase math puts the day of a Start and the four days after it
    in the Menstrual range, whatever the average cycle length. *)
Lemma phaseMath_period_days st s d :
  Sorted dateLe (events (cycle st)) ->
  In (Start s) (events (cycle st)) ->
  s <= d <= s + 4 ->
  phaseMath st d = Menstrual.
Proof.
  intros Hsorted Hin Hd. unfold phaseMath.
  destruct (List.find _ (rev (events (cycle st)))) as [ls|] eqn:F.
  - destruct (find_rev_split _ _ _ F) as [l1 [l2 [E [Hp Hl2]]]].
    apply andb_true_iff in Hp as [Hs Hle].
    assert (Hge : s <= date ls).
    { rewrite E in Hin, Hsorted.
      apply in_app_or in Hin as [Hin | [Heq | Hin]].
      - apply (Sorted_app_le l1 (ls :: l2) (Start s) ls Hsorted Hin).
        now left.
      - rewrite Heq. simpl. lia.
      - rewrite Forall_forall in Hl2.
        apply list_elem_of_In in Hin. specialize (Hl2 _ Hin).
        simpl in Hl2. apply Z.leb_gt in Hl2. lia. }
    cbv zeta.
    replace (d - date ls + 1 - 1) with (d - date ls) by lia.
    pose proof (rem_le_nonneg (d - date ls) (avgLen st)).
    apply (phaseOfCycleDay_ranges _). lia.
  - exfalso. apply (proj1 (in_rev _ _)) in Hin.
    pose proof (find_none _ _ F (Start s) Hin) as Hf.
    simpl in Hf. apply Z.leb_gt in Hf. lia.
Qed.

(** On a sorted log the last event on or before [d] is dated no earlier
    than any event on or before [d]. *)
Lemma lastEventLoop_latest st d e x :
  Sorted dateLe (events (cycle st)) ->
  lastEventLoop d (events (cycle st)) None = Some e ->
  In x (events (cycle st)) -> date x <= d ->
  date x <= date e.
Proof.
  intros Hsorted L Hin Hx.
  destruct (lastEventLoop_some _ _ _ _ L)
    as [[[=] _] | [pre [post [E [Hle Hhd]]]]].
  rewrite E in Hin, Hsorted.
  apply in_app_or in Hin as [Hin | [Heq | Hin]].
  - apply (Sorted_app_le pre (e :: post) x e Hsorted Hin). now left.
  - rewrite Heq. lia.
  - pose proof (Sorted_app_r _ _ Hsorted) as Hs'.
    inversion Hs' as [|? ? Hpost _]; subst.
    pose proof (Sorted_all_after d post Hpost Hhd) as Hall.
    rewrite Forall_forall in Hall.
    apply list_elem_of_In in Hin. specialize (Hall _ Hin).
    simpl in Hall. lia.
Qed.

(** X9. On a sorted log, the day of a Start and the four days after it
    are Menstrual whatever else is logged: an End logged early does not
    shorten the Menstrual phase below five days. *)
Theorem getPhaseForDate_period_days (st : State) (s d : Z) :
  Sorted dateLe (events (cycle st)) ->
  In (Start s) (events (cycle st)) ->
  s <= d <= s + 4 ->
  getPhaseForDate st d = Menstrual.
Proof.
  intros Hsorted Hin Hd.
  pose proof (phaseMath_period_days st s d Hsorted Hin Hd) as Hmath.
  unfold getPhaseForDate.
  destruct (lastEventLoop d (events (cycle st)) None) as [e|] eqn:L; trivial.
  destruct (isStart e) eqn:Hs; trivial.
  pose proof (lastEventLoop_latest st d e (Start s) Hsorted L Hin) as Hge.
  simpl in Hge.
  now replace (d - date e <=? 7) with true by lia.
Qed.

(** A period closed on its second day: the fourth day is still
    Menstrual. *)
Lemma getPhaseForDate_period_days_witness :
  getPhaseForDate
    (set_events [Start (isoDate 2024 1 1); End (isoDate 2024 1 2)]
                getFactoryDefaults)
    (isoDate 2024 1 4) = Menstrual.
Proof.
  apply (getPhaseForDate_period_days _ (isoDate 2024 1 1)).
  - simpl. repeat (apply Sorted_cons || apply HdRel_cons || apply HdRel_nil
                   || apply Sorted_nil). apply Z.leb_le. reflexivity.
  - left. reflexivity.
  - split; apply Z.leb_le; reflexivity.
Defined.

Lemma lastEventLoop_all d l acc :
  Forall (fun e => date e <= d) l ->
  lastEventLoop d l acc = match last l with Some e => Some e | None => acc end.
Proof.
  intros H. revert acc. induction H as [|x r Hx _ IH]; intros acc; simpl.
  - reflexivity.
  - replace (date x <=? d) with true by lia. rewrite IH.
    destruct r as [|y r']; [reflexivity|].
    change (last (x :: y :: r')) with (last (y :: r')).
    destruct (last (y :: r')) eqn:E; trivial.
    apply last_None in E. discriminate E.
Qed.

Lemma find_ext_in {A} (f g : A -> bool) (l : list A) :
  (forall x, In x l -> f x = g x) -> List.find f l = List.find g l.
Proof.
  induction l as [|x r IH]; intros H; simpl; trivial.
  rewrite (H x (or_introl eq_refl)).
  destruct (g x); trivial. apply IH. intros y Hy. apply H. now right.
Qed.

(** Beyond the last logged event the phase math depends on the date only
    through the remainder of the day count. *)
Lemma phaseMath_beyond st d :
  Forall (fun e => date e <= d) (events (cycle st)) ->
  phaseMath st d =
    match List.find isStart (rev (events (cycle st))) with
    | None => Follicular
    | Some lastStart =>
        phaseOfCycleDay (Z.rem (d - date lastStart) (avgLen st) + 1)
    end.
Proof.
  intros Hall. unfold phaseMath.
  rewrite (find_ext_in _ isStart).
  - destruct (List.find isStart (rev (events (cycle st)))); trivial.
    cbv zeta. now replace (d - date c + 1 - 1) with (d - date c) by lia.
  - intros x Hx. apply in_rev in Hx. rewrite Forall_forall in Hall.
    apply list_elem_of_In in Hx. specialize (Hall x Hx). simpl in Hall.
    replace (date x <=? d) with true by lia. apply andb_true_r.
Qed.

(** X10. Projection into the future is periodic: for a date [d] on or
    after every logged event and more than 7 days after an unclosed last
    Start, the phase [k] whole average cycles later is the phase of [d]. *)
Theorem getPhaseForDate_periodic (st : State) (d k : Z) :
  Forall (fun e => date e <= d) (events (cycle st)) ->
  (forall s, last (events (cycle st)) = Some (Start s) -> 7 < d - s) ->
  0 < avgLen st -> 0 <= k ->
  getPhaseForDate st (d + k * avgLen st) = getPhaseForDate st d.
Proof.
  intros Hall Hopen Hlen Hk.
  assert (Hd' : d <= d + k * avgLen st) by nia.
  assert (Hall' : Forall (fun e => date e <= d + k * avgLen st)
                         (events (cycle st))).
  { eapply Forall_impl; [exact Hall|]. simpl. intros; lia. }
  assert (Hmath : phaseMath st (d + k * avgLen st) = phaseMath st d).
  { rewrite !phaseMath_beyond by trivial.
    destruct (List.find isStart (rev (events (cycle st)))) as [ls|] eqn:F;
      trivial.
    apply find_some in F as [Hin _]. apply in_rev in Hin.
    rewrite Forall_forall in Hall. apply list_elem_of_In in Hin.
    specialize (Hall ls Hin). simpl in Hall.
    f_equal. f_equal.
    rewrite !Z.rem_mod_nonneg by lia.
    replace (d + k * avgLen st - date ls) with (d - date ls + k * avgLen st)
      by lia.
    apply Z.mod_add. lia. }
  unfold getPhaseForDate. rewrite !lastEventLoop_all by trivial.
  destruct (last (events (cycle st))) as [e|] eqn:L; trivial.
  destruct (isStart e) eqn:Hs; trivial.
  specialize (Hopen (date e) (f_equal Some (isStart_Start e Hs))).
  replace (d + k * avgLen st - date e <=? 7) with false by lia.
  now replace (d - date e <=? 7) with false by lia.
Qed.

(** One closed period, and the 15th day of the cycle, two cycles on. *)
Lemma getPhaseForDate_periodic_witness :
  let st := set_events [Start (isoDate 2024 1 1); End (isoDate 2024 1 5)]
                       getFactoryDefaults in
  getPhaseForDate st (isoDate 2024 1 15 + 2 * avgLen st) =
  getPhaseForDate st (isoDate 2024 1 15).
Proof.
  intros st.
  apply (getPhaseForDate_periodic st (isoDate 2024 1 15) 2).
  - repeat constructor; simpl; apply Z.leb_le; reflexivity.
  - intros s H. discriminate H.
  - reflexivity.
  - discriminate.
Defined.

(** ** The predicted next period *)

Lemma find_isStart_on_or_before d l ls :
  List.find isStart l = Some ls -> date ls <= d ->
  List.find (fun e => isStart e && (date e <=? d)) l = Some ls.
Proof.
  induction l as [|x r IH]; simpl; [discriminate|].
  destruct (isStart x) eqn:E; simpl.
  - intros [= ->] Hle. now replace (date ls <=? d) with true by lia.
  - intros H Hle. now apply IH.
Qed.

(** X11. [predictNextPeriod] returns [null] exactly when the log holds
    no Start; otherwise it returns a date, [avgLength] days after the
    local day of a logged Start. *)
Theorem predictNextPeriod_none_iff (west : bool) (st : State) :
  (predictNextPeriod west st = None <->
   forall e, In e (events (cycle st)) -> isStart e = false) /\
  (forall d, predictNextPeriod west st = Some d ->
     exists s, In (Start s) (events (cycle st)) /\
       d = (if west then s - 1 else s) + avgLength (cycle st)).
Proof.
  unfold predictNextPeriod.
  destruct (List.find isStart (rev (events (cycle st)))) as [ls|] eqn:F.
  - apply find_some in F as [Hin Hs]. apply in_rev in Hin. split.
    + split; [discriminate|]. intros H. specialize (H ls Hin). congruence.
    + intros d [= <-]. exists (date ls). split; trivial.
      now rewrite <- (isStart_Start ls Hs).
  - split.
    + split; trivial. intros _ e He.
      apply (find_none _ _ F e). now apply in_rev in He.
    + discriminate.
Qed.

(** X12. In a zone at or ahead of UTC, with a non-negative average
    cycle length, the date that [predictNextPeriod] returns is one that
    [getPhaseForDate] resolves as Menstrual. *)
Theorem predictNextPeriod_is_menstrual (st : State) (d : Z) :
  0 <= avgLength (cycle st) ->
  predictNextPeriod false st = Some d ->
  getPhaseForDate st d = Menstrual.
Proof.
  intros Hlen. unfold predictNextPeriod.
  destruct (List.find isStart (rev (events (cycle st)))) as [ls|] eqn:F;
    [|discriminate].
  intros [= <-].
  assert (Hmath : phaseMath st (date ls + avgLength (cycle st)) = Menstrual).
  { unfold phaseMath.
    rewrite (find_isStart_on_or_before _ _ ls F) by lia. cbv zeta.
    replace (date ls + avgLength (cycle st) - date ls + 1 - 1)
      with (avgLength (cycle st)) by lia.
    unfold avgLen. destruct (avgLength (cycle st) =? 0) eqn:E.
    - apply Z.eqb_eq in E. rewrite E. reflexivity.
    - apply Z.eqb_neq in E. rewrite Z.rem_same by trivial. reflexivity. }
  unfold getPhaseForDate.
  destruct (lastEventLoop _ _ _) as [e|]; trivial.
  destruct (isStart e); trivial.
  now destruct (_ <=? 7).
Qed.

(** The factory average 29 after a Start on 2024-01-01: 2024-01-30. *)
Lemma predictNextPeriod_is_menstrual_witness :
  getPhaseForDate (set_events [Start (isoDate 2024 1 1)] getFactoryDefaults)
                  (isoDate 2024 1 30) = Menstrual.
Proof.
  apply (predictNextPeriod_is_menstrual
           (set_events [Start (isoDate 2024 1 1)] getFactoryDefaults)
           (isoDate 2024 1 30)).
  - discriminate.
  - reflexivity.
Defined.

(** X13. In a zone behind UTC the returned date is one day earlier, and
    on a sorted log with an average cycle length of at least 18 days
    [getPhaseForDate] resolves it as Luteal, the last day of the running
    cycle, not as the first day of the next. *)
Theorem predictNextPeriod_west (st : State) (d : Z) :
  predictNextPeriod true st = Some d ->
  predictNextPeriod false st = Some (d + 1) /\
  (Sorted dateLe (events (cycle st)) ->
   18 <= avgLength (cycle st) ->
   getPhaseForDate st d = Luteal).
Proof.
  unfold predictNextPeriod.
  destruct (List.find isStart (rev (events (cycle st)))) as [ls|] eqn:F;
    [|discriminate].
  intros [= <-]. split; [f_equal; lia|].
  intros Hsorted Hlen.
  set (L := avgLength (cycle st)) in *.
  assert (HavgLen : avgLen st = L).
  { unfold avgLen. fold L. now replace (L =? 0) with false by lia. }
  assert (Hmath : phaseMath st (date ls - 1 + L) = Luteal).
  { unfold phaseMath.
    rewrite (find_isStart_on_or_before _ _ ls F) by lia. cbv zeta.
    replace (date ls - 1 + L - date ls + 1 - 1) with (L - 1) by lia.
    rewrite HavgLen, Z.rem_small by lia.
    apply (phaseOfCycleDay_ranges _). lia. }
  unfold getPhaseForDate.
  destruct (lastEventLoop _ _ _) as [e|] eqn:Le; trivial.
  destruct (isStart e) eqn:Hs; trivial.
  destruct (lastEventLoop_in _ _ _ _ Le) as [[=] | [Hin _]].
  destruct (find_rev_split _ _ _ F) as [l1 [l2 [E [_ Hl2]]]].
  assert (Hle : date e <= date ls).
  { rewrite E in Hin, Hsorted.
    apply in_app_or in Hin as [Hin | [Heq | Hin]].
    - apply (Sorted_app_le l1 (ls :: l2) e ls Hsorted Hin). now left.
    - rewrite Heq. lia.
    - rewrite Forall_forall in Hl2. apply list_elem_of_In in Hin.
      specialize (Hl2 _ Hin). simpl in Hl2. congruence. }
  now replace (date ls - 1 + L - date e <=? 7) with false by lia.
Qed.

(** The same log read behind UTC: 2024-01-29, day 29 of the cycle. *)
Lemma predictNextPeriod_west_witness :
  getPhaseForDate (set_events [Start (isoDate 2024 1 1)] getFactoryDefaults)
                  (isoDate 2024 1 29) = Luteal.
Proof.
  apply (predictNextPeriod_west
           (set_events [Start (isoDate 2024 1 1)] getFactoryDefaults)
           (isoDate 2024 1 29)).
  - reflexivity.
  - simpl. repeat constructor.
  - apply Z.leb_le. reflexivity.
Defined.

(** ** Logging a weight: [setWeight] *)

(** X16. [setWeight] ignores NaN and any value below 20: state and
    cached TDEE are returned as they were. *)
Theorem setWeight_rejected (dateStr : Z) (w : jsnum) (st : State) (rt : Runtime) :
  (forall q, w = Some q -> (q < 20)%Q) ->
  setWeight dateStr w (st, rt) = (st, rt).
Proof.
  intros H. unfold setWeight. destruct w as [q|]; trivial.
  specialize (H q eq_refl).
  destruct (Qle_bool 20 q) eqn:E.
  - apply Qle_bool_iff in E. exfalso. now apply (Qlt_not_le q 20).
  - now rewrite orb_true_r.
Qed.

(** A weight of 19.9 kg is not recorded. *)
Lemma setWeight_rejected_witness :
  setWeight (isoDate 2024 1 1) (Some 19.9%Q)
            (getFactoryDefaults, mkRuntime (isoDate 2024 1 1) (ofZ 0)) =
  (getFactoryDefaults, mkRuntime (isoDate 2024 1 1) (ofZ 0)).
Proof.
  apply setWeight_rejected. intros q [= <-]. reflexivity.
Defined.

(** X17. An accepted weight (20 or more) is stored under its date and the
    cached TDEE is recomputed from the new state.  For today's date it
    also becomes the profile weight and the weight the estimator uses;
    for any other date the profile and the estimate for today are
    unchanged.  The cycle data is untouched in both cases. *)
Theorem setWeight_accepted (dateStr : Z) (q : Q) (st : State) (rt : Runtime) :
  (20 <= q)%Q ->
  let '(st', rt') := setWeight dateStr (Some q) (st, rt) in
  weights (logs st') !! dateStr = Some q /\
  today rt' = today rt /\
  tdee rt' = calculateKatchMcArdle st' (today rt) /\
  cycle st' = cycle st /\
  (dateStr = today rt ->
     weight (profile st') = q /\ currentWeight st' (today rt) = q) /\
  (dateStr <> today rt ->
     profile st' = profile st /\
     calculateKatchMcArdle st' (today rt) =
       calculateKatchMcArdle st (today rt)).
Proof.
  intros Hq. unfold setWeight.
  assert (Hnz : Qeq_bool q 0 = false).
  { destruct (Qeq_bool q 0) eqn:E; trivial.
    apply Qeq_bool_iff in E. rewrite E in Hq. now exfalso. }
  assert (Hle : Qle_bool 20 q = true) by now apply Qle_bool_iff.
  rewrite Hnz, Hle. simpl.
  destruct (dateStr =? today rt) eqn:E.
  - apply Z.eqb_eq in E. simpl. rewrite lookup_insert_eq.
    split; [|split; [|split; [|split; [|split]]]]; trivial.
    + intros _. split; trivial.
      unfold currentWeight. simpl. rewrite E, lookup_insert_eq.
      unfold orDefault. now rewrite Hnz.
    + intros Hne. now exfalso.
  - apply Z.eqb_neq in E. simpl. rewrite lookup_insert_eq.
    split; [|split; [|split; [|split; [|split]]]]; trivial.
    + intros He. now exfalso.
    + intros _. split; trivial.
      unfold calculateKatchMcArdle, bmr, lbm, currentWeight. simpl.
      now rewrite lookup_insert_ne.
Qed.

(** 64.2 kg logged for today, then read back by the estimator. *)
Lemma setWeight_accepted_witness :
  currentWeight
    (fst (setWeight (isoDate 2024 1 1) (Some 64.2%Q)
            (getFactoryDefaults, mkRuntime (isoDate 2024 1 1) (ofZ 0))))
    (isoDate 2024 1 1) = 64.2%Q.
Proof.
  pose proof (setWeight_accepted (isoDate 2024 1 1) 64.2%Q getFactoryDefaults
                (mkRuntime (isoDate 2024 1 1) (ofZ 0))) as H.
  destruct (setWeight (isoDate 2024 1 1) (Some 64.2%Q)
              (getFactoryDefaults, mkRuntime (isoDate 2024 1 1) (ofZ 0)))
    as [st' rt'].
  destruct H as [_ [_ [_ [_ [H _]]]]]; [discriminate|].
  exact (proj2 (H eq_refl)).
Defined.

(** ** Food log and food library *)

Lemma getDailyStats_other_date_n n st d d' :
  d <> d' ->
  nutrition (logs st) !! d' = n !! d' ->
  getDailyStats (set_nutrition n st) d' = getDailyStats st d'.
Proof.
  intros _ H. unfold getDailyStats. simpl. now rewrite H.
Qed.

Section Library.
Context `{E : JsEnv}.

Lemma nutrition_logFood now d food s :
  nutrition (logs (state (logFood now d food s))) !! d =
    Some (default [] (nutrition (logs (state s)) !! d) ++ [foodEntry now food]).
Proof. unfold logFood. simpl. apply lookup_insert_eq. Qed.

Lemma nutrition_logFood_ne now d d' food s :
  d <> d' ->
  nutrition (logs (state (logFood now d food s))) !! d' =
    nutrition (logs (state s)) !! d'.
Proof. intros H. unfold logFood. simpl. now apply lookup_insert_ne. Qed.

(** X18. [logFood] adds the parsed values of the food (NaN counting as
    0, a missing fiber as 0) to the macro totals of its date, and changes
    neither the burn total of that date nor the totals of any other
    date. *)
Theorem logFood_totals (now d : Z) (food : RawFood raw) (s : Store) :
  let r0 := getDailyStats (state s) d in
  let r := getDailyStats (state (logFood now d food s)) d in
  macros r = addMacros (macros r0) (foodEntry now food) /\
  m_cals (macros r) = (m_cals (macros r0) + orZero (parseInt (rcals food)))%Q /\
  m_p (macros r) = (m_p (macros r0) + orZero (parseFloat (rp food)))%Q /\
  (falsy (rfiber food) = true -> m_fiber (macros r) = (m_fiber (macros r0) + 0)%Q) /\
  burn r = burn r0 /\
  (forall d', d <> d' ->
     getDailyStats (state (logFood now d food s)) d' =
       getDailyStats (state s) d').
Proof.
  intros r0 r.
  assert (Hm : macros r = addMacros (macros r0) (foodEntry now food)).
  { subst r r0. unfold getDailyStats. cbn [macros].
    rewrite nutrition_logFood. cbn [default from_option]. unfold id.
    now rewrite fold_left_app. }
  split; [exact Hm|]. rewrite Hm.
  split; [reflexivity|]. split; [reflexivity|]. split.
  - intros Hf. simpl. rewrite Hf, parseFloat_rawZero. reflexivity.
  - split; [reflexivity|].
    intros d' Hne. unfold getDailyStats.
    now rewrite nutrition_logFood_ne.
Qed.

Lemma filter_fresh_id id (l : list Food.item) :
  Forall (fun f => Food.id f <> id) l ->
  List.filter (fun f => negb (Food.id f =? id)) l = l.
Proof.
  induction 1 as [|x r Hx _ IH]; simpl; trivial.
  replace (Food.id x =? id) with false by lia. simpl. now rewrite IH.
Qed.

(** X19. Round trip: logging a food under a fresh id and removing that
    id leaves the day's list of entries as it was (an empty list where
    there was none), and the daily totals of every date. *)
Theorem logFood_removeFood (now d : Z) (food : RawFood raw) (s : Store) :
  Forall (fun f => Food.id f <> now)
         (default [] (nutrition (logs (state s)) !! d)) ->
  nutrition (logs (removeFood d now (state (logFood now d food s)))) !! d =
    Some (default [] (nutrition (logs (state s)) !! d)) /\
  forall d', getDailyStats (removeFood d now (state (logFood now d food s))) d' =
             getDailyStats (state s) d'.
Proof.
  intros Hfresh.
  assert (Hrm : nutrition (logs (removeFood d now (state (logFood now d food s))))
                = <[d := default [] (nutrition (logs (state s)) !! d)]>
                    (nutrition (logs (state s)))).
  { unfold removeFood. rewrite nutrition_logFood. simpl.
    rewrite insert_insert_eq. f_equal.
    rewrite List.filter_app, (filter_fresh_id _ _ Hfresh). simpl.
    rewrite Z.eqb_refl. simpl. apply app_nil_r. }
  split.
  - rewrite Hrm. apply lookup_insert_eq.
  - intros d'. unfold getDailyStats.
    assert (Hw : workouts (logs (removeFood d now (state (logFood now d food s))))
                 = workouts (logs (state s))).
    { unfold removeFood. rewrite nutrition_logFood. reflexivity. }
    rewrite Hw, Hrm.
    destruct (decide (d = d')) as [<- | Hne].
    + rewrite lookup_insert_eq. reflexivity.
    + now rewrite lookup_insert_ne.
Qed.

Lemma existsb_sameName food lib :
  existsb (sameName food) lib = true <->
  In (lowerName food) (map lowerName lib).
Proof.
  rewrite existsb_exists, in_map_iff. unfold sameName, lowerName.
  split; intros [f [H1 H2]]; exists f.
  - apply String.eqb_eq in H2. now split.
  - split; trivial. apply String.eqb_eq. exact H1.
Qed.

Lemma library_logFood_NoDup now d food s :
  List.NoDup (map lowerName (library s)) ->
  List.NoDup (map lowerName (library (logFood now d food s))).
Proof.
  intros Hnd. unfold logFood. simpl.
  destruct (existsb (sameName food) (library s)) eqn:Ex; trivial.
  apply (Permutation_NoDup
           (Permutation_sym (Permutation_map lowerName (localeSort_perm _)))).
  rewrite List.map_app. simpl.
  apply (Permutation_NoDup (Permutation_cons_append _ _)).
  constructor; trivial.
  intros Hin. apply existsb_sameName in Hin. congruence.
Qed.

Lemma logFoods_snoc fs x s :
  logFoods (fs ++ [x]) s =
    logFood (fst (fst x)) (snd (fst x)) (snd x) (logFoods fs s).
Proof. unfold logFoods. now rewrite fold_left_app. Qed.

(** X20. The food library never holds two foods under one lower-cased
    name: after any sequence of [logFood] calls from an empty library,
    the lower-cased names of the library are pairwise different. *)
Theorem library_no_duplicate_names (fs : list (Z * Z * RawFood raw)) (s : Store) :
  library s = [] ->
  List.NoDup (map lowerName (library (logFoods fs s))).
Proof.
  intros Hempty.
  induction fs as [|x fs IH] using rev_ind.
  - simpl. rewrite Hempty. constructor.
  - rewrite logFoods_snoc. now apply library_logFood_NoDup.
Qed.

(** X21. First write wins: when the library already holds a food under
    the same lower-cased name, [logFood] leaves the library as it is;
    otherwise the library afterwards is a rearrangement of the old one
    plus the new food.  Either way the name is in the library
    afterwards. *)
Theorem library_first_write_wins (now d : Z) (food : RawFood raw) (s : Store) :
  (existsb (sameName food) (library s) = true ->
     library (logFood now d food s) = library s) /\
  (existsb (sameName food) (library s) = false ->
     Permutation (library (logFood now d food s)) (library s ++ [food])) /\
  existsb (sameName food) (library (logFood now d food s)) = true.
Proof.
  unfold logFood. simpl.
  destruct (existsb (sameName food) (library s)) eqn:Ex.
  - repeat split; trivial. discriminate.
  - split; [discriminate|]. split; [intros _; apply localeSort_perm|].
    apply existsb_exists. exists food. split.
    + apply (Permutation_in _ (Permutation_sym (localeSort_perm _))).
      apply in_or_app. right. now left.
    + unfold sameName. apply String.eqb_refl.
Qed.

End Library.

(** A glass of chai logged on 2024-01-05 at clock value 7 and removed. *)
Lemma logFood_removeFood_witness :
  let chai := mkRawFood "Chai" 120%Q 2%Q 14%Q 4.5%Q 0%Q in
  let s0 := mkStore (H := plainEnv) getFactoryDefaults [] in
  nutrition (logs (removeFood (isoDate 2024 1 5) 7
                     (state (logFood (H := plainEnv) 7 (isoDate 2024 1 5)
                                     chai s0))))
    !! isoDate 2024 1 5 = Some [].
Proof.
  intros chai s0.
  apply (proj1 (logFood_removeFood (E := plainEnv) 7 (isoDate 2024 1 5)
                  chai s0 (List.Forall_nil _))).
Defined.

(** Chai, CHAI and Roti logged in turn: the library holds two names. *)
Lemma library_no_duplicate_names_witness :
  let d := isoDate 2024 1 5 in
  let fs := [(1, d, mkRawFood "Chai" 120%Q 2%Q 14%Q 4.5%Q 0%Q);
             (2, d, mkRawFood "CHAI" 90%Q 1%Q 10%Q 3%Q 0%Q);
             (3, d, mkRawFood "Roti" 110%Q 3%Q 20%Q 2%Q 3%Q)] in
  List.NoDup
    (map (lowerName (H := plainEnv))
         (library (logFoods (H := plainEnv) fs
                            (mkStore (H := plainEnv) getFactoryDefaults [])))).
Proof.
  intros d fs.
  apply (library_no_duplicate_names (E := plainEnv) fs
           (mkStore (H := plainEnv) getFactoryDefaults []) eq_refl).
Defined.

Example library_chai_roti :
  map rname
      (library (logFoods (H := plainEnv)
                  [(1, 0, mkRawFood "Roti" 110%Q 3%Q 20%Q 2%Q 3%Q);
                   (2, 0, mkRawFood "Chai" 120%Q 2%Q 14%Q 4.5%Q 0%Q);
                   (3, 0, mkRawFood "CHAI" 90%Q 1%Q 10%Q 3%Q 0%Q)]
                  (mkStore (H := plainEnv) getFactoryDefaults [])))
  = ["Chai"; "Roti"].
Proof. reflexivity. Qed.

Lemma filter_filter_id id (l : list Food.item) :
  List.filter (fun f => negb (Food.id f =? id))
              (List.filter (fun f => negb (Food.id f =? id)) l) =
  List.filter (fun f => negb (Food.id f =? id)) l.
Proof.
  induction l as [|x r IH]; simpl; trivial.
  destruct (negb (Food.id x =? id)) eqn:E; simpl; trivial.
  now rewrite E, IH.
Qed.

(** X22. [removeFood] on a date without a list changes nothing (no
    empty list is created).  Where there is a list, the entries left are
    those with another id, in their order; the lists of other dates are
    unchanged; and removing the same id again changes nothing more. *)
Theorem removeFood_removes (d id : Z) (st : State) :
  (nutrition (logs st) !! d = None -> removeFood d id st = st) /\
  (forall l, nutrition (logs st) !! d = Some l ->
     nutrition (logs (removeFood d id st)) !! d =
       Some (List.filter (fun f => negb (Food.id f =? id)) l) /\
     forall e, In e (List.filter (fun f => negb (Food.id f =? id)) l) <->
               In e l /\ Food.id e <> id) /\
  (forall d', d <> d' ->
     nutrition (logs (removeFood d id st)) !! d' = nutrition (logs st) !! d') /\
  removeFood d id (removeFood d id st) = removeFood d id st.
Proof.
  split; [|split; [|split]].
  - intros H. unfold removeFood. now rewrite H.
  - intros l H. unfold removeFood. rewrite H. simpl. split.
    + apply lookup_insert_eq.
    + intros e. rewrite filter_In. split; intros [H1 H2]; split; trivial.
      * apply negb_true_iff in H2. lia.
      * apply negb_true_iff. lia.
  - intros d' Hne. unfold removeFood.
    destruct (nutrition (logs st) !! d); trivial.
    simpl. now apply lookup_insert_ne.
  - unfold removeFood at 2.
    destruct (nutrition (logs st) !! d) as [l|] eqn:H.
    + unfold removeFood, set_nutrition. cbn [logs nutrition].
      rewrite lookup_insert_eq. cbn [logs nutrition profile workouts weights cycle].
      now rewrite insert_insert_eq, filter_filter_id, H.
    + unfold removeFood. now rewrite H.
Qed.

(** Two entries logged in the same millisecond share an id and are
    removed together. *)
Lemma removeFood_removes_witness :
  let e1 := Food.mk 7 "Chai" (Some 120%Q) None None None None in
  let e2 := Food.mk 7 "Roti" (Some 110%Q) None None None None in
  let e3 := Food.mk 9 "Daal" (Some 180%Q) None None None None in
  let st := set_nutrition {[ isoDate 2024 1 5 := [e1; e2; e3] ]}
                          getFactoryDefaults in
  nutrition (logs (removeFood (isoDate 2024 1 5) 7 st)) !! isoDate 2024 1 5 =
    Some [e3].
Proof.
  intros e1 e2 e3 st.
  apply (proj1 (proj1 (proj2 (removeFood_removes (isoDate 2024 1 5) 7 st))
                  [e1; e2; e3] (lookup_singleton_eq _ _))).
Defined.

(** ** Water *)




(** ** Workouts and the other totals *)

(** X24. [logWorkout] changes the burn total of its date only: the macro
    totals of that date, the totals of every other date, the phase of
    every date and the energy estimate are what they were. *)
Theorem logWorkout_frame (now d : Z) (w : Workout) (st : State) :
  macros (getDailyStats (logWorkout now d w st) d) =
    macros (getDailyStats st d) /\
  (forall d', d <> d' ->
     getDailyStats (logWorkout now d w st) d' = getDailyStats st d') /\
  (forall d', getPhaseForDate (logWorkout now d w st) d' =
              getPhaseForDate st d') /\
  (forall t, calculateKatchMcArdle (logWorkout now d w st) t =
             calculateKatchMcArdle st t).
Proof.
  split; [reflexivity|]. split; [|split; reflexivity].
  intros d' Hne. unfold getDailyStats, logWorkout. simpl.
  now rewrite lookup_insert_ne.
Qed.

(** ** The earlier tracker *)

Lemma jsRound_between a b t c :
  0 < c -> a * c <= t <= b * c -> a <= jsRound t c <= b.
Proof.
  intros Hc Ht. unfold jsRound. split.
  - apply Z.div_le_lower_bound; nia.
  - apply Z.lt_succ_r. apply Z.div_lt_upper_bound; nia.
Qed.

Lemma weightedSum_bounds a b h : forall ws acc accw,
  length h = length ws ->
  Forall (fun x => a <= x <= b) h ->
  Forall (fun w => 0 <= w) ws ->
  a * accw <= acc <= b * accw ->
  a * fold_left Z.add ws accw
    <= fold_left (fun sum lw => sum + fst lw * snd lw) (combine h ws) acc
    <= b * fold_left Z.add ws accw.
Proof.
  induction h as [|x r IH]; intros ws acc accw Hlen Hh Hws Hacc.
  - destruct ws; [simpl; lia | discriminate].
  - destruct ws as [|w ws']; [discriminate|].
    simpl. inversion Hh; subst. inversion Hws; subst.
    apply IH; trivial.
    + simpl in Hlen. lia.
    + nia.
Qed.

Lemma fold_left_add_ge ws : forall acc,
  Forall (fun w => 0 <= w) ws -> acc <= fold_left Z.add ws acc.
Proof.
  induction ws as [|w r IH]; intros acc H; simpl; [lia|].
  inversion H; subst. specialize (IH (acc + w) ltac:(trivial)). lia.
Qed.

Lemma weightsOf_nonneg h : Forall (fun w => 0 <= w) (Tracker.weightsOf h).
Proof.
  unfold Tracker.weightsOf. apply Forall_forall. intros w Hw.
  apply list_elem_of_In, in_map_iff in Hw as [i [<- _]]. lia.
Qed.

Lemma weightsOf_length h : length h = length (Tracker.weightsOf h).
Proof.
  unfold Tracker.weightsOf. now rewrite length_map, length_seq.
Qed.

Lemma weightSum_pos h :
  h <> [] -> 0 < fold_left Z.add (Tracker.weightsOf h) 0.
Proof.
  intros Hne. destruct h as [|x r]; [congruence|].
  pose proof (weightsOf_nonneg (x :: r)) as Hnn.
  change (Tracker.weightsOf (x :: r))
    with ((Z.of_nat 0 + 1)
            :: map (fun index => Z.of_nat index + 1) (seq 1 (length r))) in *.
  inversion Hnn as [|? ? _ Hr]; subst.
  change (0 < fold_left Z.add
                (map (fun index => Z.of_nat index + 1) (seq 1 (length r)))
                (0 + (Z.of_nat 0 + 1))).
  pose proof (fold_left_add_ge _ (0 + (Z.of_nat 0 + 1)) Hr). lia.
Qed.

Lemma predictCycleLength_range history :
  21 <= Tracker.predictCycleLength history <= 35.
Proof.
  unfold Tracker.predictCycleLength.
  destruct (length history <? 3)%nat; lia.
Qed.

Lemma getCyclePhase_early d cycleLength :
  d <= 5 -> Tracker.getCyclePhase d cycleLength = Tracker.menstrual.
Proof.
  intros H. unfold Tracker.getCyclePhase. cbv zeta.
  now replace (d <=? 5) with true by lia.
Qed.

(** X25. [predictCycleLength] always answers between 21 and 35 days; it
    answers 28 for a history of fewer than 3 cycles; and for a longer
    history whose cycles all lie between [a] and [b] days, within 21 to
    35, the answer lies between [a] and [b]. *)
Theorem predictCycleLength_bounds (history : list Z) :
  21 <= Tracker.predictCycleLength history <= 35 /\
  ((length history < 3)%nat -> Tracker.predictCycleLength history = 28) /\
  (forall a b,
     (3 <= length history)%nat -> 21 <= a -> b <= 35 ->
     Forall (fun x => a <= x <= b) history ->
     a <= Tracker.predictCycleLength history <= b).
Proof.
  split; [apply predictCycleLength_range|].
  unfold Tracker.predictCycleLength. split.
  - intros H. now replace (length history <? 3)%nat with true
      by (symmetry; apply Nat.ltb_lt; lia).
  - intros a b Hlen Ha Hb Hall.
    replace (length history <? 3)%nat with false
      by (symmetry; apply Nat.ltb_ge; lia).
    cbv zeta.
    assert (Hne : history <> []) by (destruct history; [simpl in Hlen; lia | discriminate]).
    pose proof (weightSum_pos history Hne) as HW.
    assert (Hr : a <= jsRound (Tracker.weightedSumOf history)
                              (fold_left Z.add (Tracker.weightsOf history) 0) <= b).
    { apply jsRound_between; trivial.
      pose proof (weightedSum_bounds a b history (Tracker.weightsOf history) 0 0
                    (weightsOf_length history) Hall (weightsOf_nonneg history)
                    ltac:(lia)) as Hs.
      unfold Tracker.weightedSumOf. lia. }
    lia.
Qed.

(** The history the tracker starts with predicts 29 days. *)
Lemma predictCycleLength_bounds_witness :
  26 <= Tracker.predictCycleLength [28; 31; 26; 29; 33; 27; 30] <= 33.
Proof.
  apply (proj2 (proj2 (predictCycleLength_bounds [28; 31; 26; 29; 33; 27; 30]))
           26 33).
  - simpl. lia.
  - lia.
  - lia.
  - repeat constructor; lia.
Defined.

Example predictCycleLength_default :
  Tracker.predictCycleLength [28; 31; 26; 29; 33; 27; 30] = 29.
Proof. reflexivity. Qed.

(** X26. [getCyclePhase] never goes back: for any cycle length, a later
    cycle day has the same or a later phase; every day up to 5, zero and
    negative days included, is menstrual; and with a cycle length of 21
    the follicular phase is empty, day 6 being ovulation. *)
Theorem getCyclePhase_monotone (cycleLength d1 d2 : Z) :
  (d1 <= d2 ->
   Tracker.rank (Tracker.getCyclePhase d1 cycleLength) <=
   Tracker.rank (Tracker.getCyclePhase d2 cycleLength)) /\
  (d1 <= 5 -> Tracker.getCyclePhase d1 cycleLength = Tracker.menstrual) /\
  Tracker.getCyclePhase 6 21 = Tracker.ovulation.
Proof.
  split; [|split; [apply getCyclePhase_early | reflexivity]].
  unfold Tracker.getCyclePhase. cbv zeta.
  set (F := jsRound cycleLength 4 - 5).
  - intros Hle.
    destruct (d1 <=? 5) eqn:A1; destruct (d2 <=? 5) eqn:A2;
      destruct (d1 - 5 <=? F) eqn:B1; destruct (d2 - 5 <=? F) eqn:B2;
      destruct (d1 - 5 - F <=? 3) eqn:C1; destruct (d2 - 5 - F <=? 3) eqn:C2;
      simpl; lia.
Qed.

(** Days 9 and 12 of a 28-day cycle. *)
Lemma getCyclePhase_monotone_witness :
  Tracker.rank (Tracker.getCyclePhase 9 28) <=
  Tracker.rank (Tracker.getCyclePhase 12 28).
Proof.
  apply (proj1 (getCyclePhase_monotone 28 9 12)). lia.
Defined.

(** X27. [calculateCycleDay] for an instant at or after the last period
    start gives a cycle day between 1 and the predicted length, itself
    between 21 and 35; for an instant before the last period start the
    cycle day is 1 or less and the phase is menstrual. *)
Theorem calculateCycleDay_range (history : list Z) (lastStart date : Z) :
  let r := Tracker.calculateCycleDay history lastStart date in
  21 <= Tracker.cycleLength r <= 35 /\
  (lastStart <= date ->
     0 <= Tracker.daysSinceStart r /\
     1 <= Tracker.cycleDay r <= Tracker.cycleLength r) /\
  (date < lastStart ->
     Tracker.cycleDay r <= 1 /\ Tracker.phase r = Tracker.menstrual).
Proof.
  unfold Tracker.calculateCycleDay. cbv zeta.
  cbn [Tracker.cycleLength Tracker.cycleDay Tracker.daysSinceStart
       Tracker.phase].
  change (1000 * 60 * 60 * 24) with 86400000.
  pose proof (predictCycleLength_range history) as HL.
  set (L := Tracker.predictCycleLength history) in *.
  split; [exact HL|]. split.
  - intros Hle.
    assert (Hd : 0 <= (date - lastStart) / 86400000)
      by (apply Z.div_pos; lia).
    split; trivial.
    pose proof (Z.rem_bound_pos _ L Hd ltac:(lia)). lia.
  - intros Hlt.
    assert (Hd : (date - lastStart) / 86400000 < 0)
      by (apply Z.div_lt_upper_bound; lia).
    assert (Hr : Z.rem ((date - lastStart) / 86400000) L <= 0)
      by (apply Z.rem_nonpos; lia).
    split; [lia|].
    apply getCyclePhase_early. lia.
Qed.

(** ** Instances of the properties above on concrete inputs *)

(** A Start logged earlier is still there after two more calls. *)
Lemma run_log_append_only_witness :
  In (Start (isoDate 2024 1 1))
     (events (cycle (run utc [OpStart (isoDate 2024 1 20); OpEnd (isoDate 2024 1 22)]
                         (set_events [Start (isoDate 2024 1 1)]
                                     getFactoryDefaults)))).
Proof.
  apply (proj1 (run_log_append_only utc
                  [OpStart (isoDate 2024 1 20); OpEnd (isoDate 2024 1 22)]
                  (set_events [Start (isoDate 2024 1 1)] getFactoryDefaults))).
  left. reflexivity.
Defined.

(** No prediction from the empty log of the factory state. *)
Lemma predictNextPeriod_none_iff_witness :
  predictNextPeriod true getFactoryDefaults = None.
Proof.
  apply (proj2 (proj1 (predictNextPeriod_none_iff true getFactoryDefaults))).
  intros e [].
Defined.

(** Chai logged with fiber 0: the fiber total gains 0. *)
Lemma logFood_totals_witness :
  let d := isoDate 2024 1 5 in
  let chai := mkRawFood "Chai" 120%Q 2%Q 14%Q 4.5%Q 0%Q in
  let s0 := mkStore (H := plainEnv) getFactoryDefaults [] in
  m_fiber (macros (getDailyStats (state (logFood (H := plainEnv) 7 d chai s0)) d))
  = (m_fiber (macros (getDailyStats (state s0) d)) + 0)%Q.
Proof.
  intros d chai s0.
  exact (proj1 (proj2 (proj2 (proj2
           (logFood_totals (E := plainEnv) 7 d chai s0)))) eq_refl).
Defined.

(** CHAI logged when the library holds Chai: the library keeps Chai. *)
Lemma library_first_write_wins_witness :
  let chai := mkRawFood "Chai" 120%Q 2%Q 14%Q 4.5%Q 0%Q in
  let chai2 := mkRawFood "CHAI" 90%Q 1%Q 10%Q 3%Q 0%Q in
  let s1 := mkStore (H := plainEnv) getFactoryDefaults [chai] in
  library (logFood (H := plainEnv) 2 (isoDate 2024 1 5) chai2 s1) = [chai].
Proof.
  intros chai chai2 s1.
  exact (proj1 (library_first_write_wins (E := plainEnv) 2 (isoDate 2024 1 5)
                  chai2 s1) eq_refl).
Defined.


(** A workout on 2024-01-05 leaves the totals of 2024-01-04. *)
Lemma logWorkout_frame_witness :
  getDailyStats (logWorkout 1 (isoDate 2024 1 5) {[ "burn" := Some 300%Q ]}
                            getFactoryDefaults) (isoDate 2024 1 4)
  = getDailyStats getFactoryDefaults (isoDate 2024 1 4).
Proof.
  apply (proj1 (proj2 (logWorkout_frame 1 (isoDate 2024 1 5)
                         {[ "burn" := Some 300%Q ]} getFactoryDefaults))).
  intros H. discriminate H.
Defined.

(** Ten days and one hour after the last period start: cycle day 11. *)
Lemma calculateCycleDay_range_witness :
  let r := Tracker.calculateCycleDay [28; 31; 26; 29; 33; 27; 30]
             0 (10 * 86400000 + 3600000) in
  1 <= Tracker.cycleDay r <= Tracker.cycleLength r.
Proof.
  intros r.
  apply (proj1 (proj2 (calculateCycleDay_range [28; 31; 26; 29; 33; 27; 30]
                         0 (10 * 86400000 + 3600000)))).
  discriminate.
Defined.

Example calculateCycleDay_day11 :
  Tracker.cycleDay (Tracker.calculateCycleDay [28; 31; 26; 29; 33; 27; 30]
                      0 (10 * 86400000 + 3600000)) = 11.
Proof. reflexivity. Qed.

(** ** A period just logged *)

Lemma run_logInvariant (tz : Zone) st0 ops :
  events (cycle st0) = [] -> logInvariant (run tz ops st0).
Proof.
  intros Hempty. induction ops as [|o ops IH] using rev_ind.
  - unfold logInvariant, run. simpl. rewrite Hempty. split; constructor.
  - rewrite run_snoc. destruct o as [d|d]; simpl.
    + now apply logPeriodStart_invariant.
    + now apply logPeriodEnd_invariant.
Qed.

(** X28. Whatever was logged before, starting from an empty log, the
    day given to [logPeriodStart] and the four days after it are resolved
    as Menstrual once the call returns. *)
Theorem logPeriodStart_then_menstrual (tz : Zone) (st0 : State) (ops : list Op) (d d' : Z) :
  events (cycle st0) = [] ->
  d <= d' <= d + 4 ->
  getPhaseForDate (logPeriodStart tz d (run tz ops st0)) d' = Menstrual.
Proof.
  intros Hempty Hd.
  set (st := logPeriodStart tz d (run tz ops st0)).
  assert (Hsorted : Sorted dateLe (events (cycle st))).
  { apply (logPeriodStart_invariant tz d (run tz ops st0)).
    now apply run_logInvariant. }
  assert (Hin : In (Start d) (events (cycle st))).
  { apply existsb_onDateOfType. apply logPeriodStart_has_start. }
  pose proof (phaseMath_period_days st d d' Hsorted Hin Hd) as Hmath.
  unfold getPhaseForDate.
  destruct (lastEventLoop d' (events (cycle st)) None) as [e|] eqn:L; trivial.
  destruct (isStart e) eqn:Hs; trivial.
  pose proof (lastEventLoop_latest st d' e (Start d) Hsorted L Hin) as Hge.
  simpl in Hge.
  now replace (d' - date e <=? 7) with true by lia.
Qed.

(** A period logged on 2024-02-01 after an earlier one that was closed
    on its second day; the third day of the new period. *)
Lemma logPeriodStart_then_menstrual_witness :
  getPhaseForDate
    (logPeriodStart utc (isoDate 2024 2 1)
       (run utc [OpStart (isoDate 2024 1 1); OpEnd (isoDate 2024 1 2)]
            getFactoryDefaults))
    (isoDate 2024 2 3) = Menstrual.
Proof.
  apply (logPeriodStart_then_menstrual utc getFactoryDefaults
           [OpStart (isoDate 2024 1 1); OpEnd (isoDate 2024 1 2)]
           (isoDate 2024 2 1) (isoDate 2024 2 3)).
  - reflexivity.
  - split; apply Z.leb_le; reflexivity.
Defined.
